(** * twitch-bot: a shallow embedding of the chat bot and its checked properties

    The development follows the three Go files of the repository:
    - the program's entry file ([loadCommands], [say], the dispatch loop of [main]),
    - [riot.go] (request helper, player cache, champion table, rank, bans,
      session statistics),
    - [twitch.go] (stream info and stream start).

    Go strings are byte strings and are modelled by [string]; Go's [int] is
    taken to be 64 bits wide (the usual platforms), values are kept in [Z]
    and wrap-around is written out where an operand is not bounded by the
    length of a slice.  Maps are [gmap]s.  Everything outside the process
    (HTTP peers, the clock, the files, JSON decoding) is an oracle of [Env]
    or a field of [World]. *)

From Stdlib Require Import ZArith List Bool Lia Ascii String DecimalString.
From Stdlib Require Import Floats Uint63.
From stdpp Require Import base option gmap strings list fin_maps.

Local Open Scope string_scope.
Local Open Scope Z_scope.

(** ** Go's [strings], [unicode/utf8] and [unicode] as far as the program uses them *)

Module GoStrings.

Definition byteZ (c : ascii) : Z := Z.of_N (N_of_ascii c).
Definition zbyte (z : Z) : ascii := ascii_of_N (Z.to_N z).

Definition CR : string := String (zbyte 13) "".
Definition LF : string := String (zbyte 10) "".
Definition CRLF : string := CR ++ LF.

Fixpoint dropS (n : nat) (s : string) : string :=
  match n, s with
  | O, _ => s
  | S _, "" => ""
  | S k, String _ s' => dropS k s'
  end.

Definition takeS (n : nat) (s : string) : string := substring 0 n s.

(** [s[i]] for a byte index; [None] is Go's run-time panic. *)
Definition byteAt (s : string) (i : nat) : option Z := byteZ <$> String.get i s.

(** *** utf8.DecodeRuneInString *)

Definition RuneError : Z := 65533.
Definition RuneSelf : Z := 128.
Definition MaxRune : Z := 1114111.

(** The [first] table of package utf8: for a lead byte, the length of the
    sequence and the accepted range of the second byte; [None] for ASCII
    and for bytes that cannot start a sequence. *)
Definition leadInfo (b0 : Z) : option (nat * Z * Z) :=
  if b0 <? 194 then None
  else if b0 <? 224 then Some (2%nat, 128, 191)
  else if b0 =? 224 then Some (3%nat, 160, 191)
  else if b0 <? 237 then Some (3%nat, 128, 191)
  else if b0 =? 237 then Some (3%nat, 128, 159)
  else if b0 <? 240 then Some (3%nat, 128, 191)
  else if b0 =? 240 then Some (4%nat, 144, 191)
  else if b0 <? 244 then Some (4%nat, 128, 191)
  else if b0 =? 244 then Some (4%nat, 128, 143)
  else None.

Definition isCont (b : Z) : bool := (128 <=? b) && (b <=? 191).

Definition DecodeRuneInString (s : string) : Z * nat :=
  match byteAt s 0 with
  | None => (RuneError, 0%nat)
  | Some s0 =>
    if s0 <? RuneSelf then (s0, 1%nat)
    else match leadInfo s0 with
    | None => (RuneError, 1%nat)
    | Some (sz, lo, hi) =>
      if (String.length s <? sz)%nat then (RuneError, 1%nat)
      else match byteAt s 1 with
      | None => (RuneError, 1%nat)
      | Some s1 =>
        if (s1 <? lo) || (hi <? s1) then (RuneError, 1%nat)
        else if (sz <=? 2)%nat then
          (Z.lor (Z.shiftl (Z.land s0 31) 6) (Z.land s1 63), 2%nat)
        else match byteAt s 2 with
        | None => (RuneError, 1%nat)
        | Some s2 =>
          if negb (isCont s2) then (RuneError, 1%nat)
          else if (sz <=? 3)%nat then
            (Z.lor (Z.lor (Z.shiftl (Z.land s0 15) 12)
                          (Z.shiftl (Z.land s1 63) 6)) (Z.land s2 63), 3%nat)
          else match byteAt s 3 with
          | None => (RuneError, 1%nat)
          | Some s3 =>
            if negb (isCont s3) then (RuneError, 1%nat)
            else
              (Z.lor (Z.lor (Z.lor (Z.shiftl (Z.land s0 7) 18)
                                   (Z.shiftl (Z.land s1 63) 12))
                            (Z.shiftl (Z.land s2 63) 6)) (Z.land s3 63), 4%nat)
          end
        end
      end
    end
  end.

(** [for _, c := range s]: the runes of [s] in order, each with the bytes
    it was decoded from (one byte, decoded as [RuneError], where the
    input is not UTF-8). *)
Fixpoint rangeString (skip : nat) (s : string) : list (Z * string) :=
  match s with
  | "" => []
  | String _ s' =>
    match skip with
    | S k => rangeString k s'
    | O => let '(r, w) := DecodeRuneInString s in
           (r, takeS w s) :: rangeString (w - 1) s'
    end
  end.

Definition runes (s : string) : list (Z * string) := rangeString 0 s.

(** *** utf8.AppendRune *)
Definition EncodeRune (r : Z) : string :=
  if (0 <=? r) && (r <? 128) then String (zbyte r) ""
  else if (0 <=? r) && (r <? 2048) then
    String (zbyte (Z.lor 192 (Z.shiftr r 6)))
      (String (zbyte (Z.lor 128 (Z.land r 63))) "")
  else if (r <? 0) || (MaxRune <? r) || ((55296 <=? r) && (r <=? 57343)) then
    String (zbyte 239) (String (zbyte 191) (String (zbyte 189) ""))
  else if r <? 65536 then
    String (zbyte (Z.lor 224 (Z.shiftr r 12)))
      (String (zbyte (Z.lor 128 (Z.land (Z.shiftr r 6) 63)))
        (String (zbyte (Z.lor 128 (Z.land r 63))) ""))
  else
    String (zbyte (Z.lor 240 (Z.shiftr r 18)))
      (String (zbyte (Z.lor 128 (Z.land (Z.shiftr r 12) 63)))
        (String (zbyte (Z.lor 128 (Z.land (Z.shiftr r 6) 63)))
          (String (zbyte (Z.lor 128 (Z.land r 63))) ""))).

(** *** strings.Map: a negative result drops the rune *)
Definition Map (mapping : Z -> Z) (s : string) : string :=
  String.concat ""
    (List.map (fun rc : Z * string =>
                 let r := mapping (fst rc) in
                 if r <? 0 then "" else EncodeRune r) (runes s)).

(** *** unicode.IsSpace (the White_Space property) *)
Definition IsSpace (r : Z) : bool :=
  ((9 <=? r) && (r <=? 13)) || (r =? 32) || (r =? 133) || (r =? 160)
  || (r =? 5760) || ((8192 <=? r) && (r <=? 8202))
  || (r =? 8232) || (r =? 8233) || (r =? 8239) || (r =? 8287) || (r =? 12288).

Fixpoint dropWhileSpace (l : list (Z * string)) : list (Z * string) :=
  match l with
  | [] => []
  | rc :: l' => if IsSpace (fst rc) then dropWhileSpace l' else l
  end.

(** *** strings.TrimSpace.  Go scans runes forwards from the left end and
    backwards from the right end; on the rune sequence of [rangeString]
    both scans stop at the first rune that is not white space. *)
Definition TrimSpace (s : string) : string :=
  String.concat ""
    (List.map snd (rev (dropWhileSpace (rev (dropWhileSpace (runes s)))))).

(** *** unicode.ToLower.  On ASCII this is the table itself.  Beyond
    ASCII exactly two runes have an ASCII lower case: U+0130 (to [i]) and
    U+212A, the Kelvin sign (to [k]).  Every other rune above 127 stays
    above 127; the program always filters those out right after
    lower-casing, so this model leaves them in place. *)
Definition unicodeToLower (r : Z) : Z :=
  if (65 <=? r) && (r <=? 90) then r + 32
  else if r =? 304 then 105
  else if r =? 8490 then 107
  else r.

Definition ToLower (s : string) : string := Map unicodeToLower s.

(** *** Byte-wise searching and splitting *)
Definition HasPrefix (s p : string) : bool := String.prefix p s.

Definition TrimPrefix (s p : string) : string :=
  if HasPrefix s p then dropS (String.length p) s else s.

Fixpoint Contains (s sub : string) : bool :=
  String.prefix sub s ||
  match s with
  | "" => false
  | String _ s' => Contains s' sub
  end.

(** [genSplit]: cut [s] at the non-overlapping occurrences of the
    non-empty separator [sep], left to right, making at most [S cuts]
    pieces.  [rcur] holds the current piece reversed. *)
Fixpoint genSplit (sep : string) (cuts skip : nat) (rcur : list ascii) (s : string)
  : list string :=
  match s with
  | "" => [string_of_list_ascii (rev rcur)]
  | String c s' =>
    match skip with
    | S k => genSplit sep cuts k rcur s'
    | O =>
      match cuts with
      | O => [string_of_list_ascii (rev rcur) ++ s]
      | S cuts' =>
        if String.prefix sep s
        then string_of_list_ascii (rev rcur)
               :: genSplit sep cuts' (String.length sep - 1) [] s'
        else genSplit sep cuts 0 (c :: rcur) s'
      end
    end
  end.

(** strings.Split(s, sep) for a non-empty [sep]. *)
Definition Split (s sep : string) : list string :=
  genSplit sep (String.length s) 0 [] s.

(** strings.SplitN(s, sep, n) for a non-empty [sep] and [n > 0]. *)
Definition SplitN (s sep : string) (n : nat) : list string :=
  genSplit sep (n - 1) 0 [] s.

Definition Join (l : list string) (sep : string) : string := String.concat sep l.

Definition ReplaceAllSpaces (s : string) : string :=
  String.concat "%20" (Split s " ").

(** [%d] *)
Definition Itoa (z : Z) : string := NilZero.string_of_int (Z.to_int z).

End GoStrings.
Import GoStrings.

(** ** The message normalization of the entry file (lines 36-42 and 120-126) *)

Definition dropNonASCII (r : Z) : Z := if 127 <? r then -1 else r.

Definition normalize (s : string) : string :=
  Map dropNonASCII (ToLower (TrimSpace s)).

(** ** strconv.Atoi: an optional sign, then decimal digits only, in range *)

Definition digitVal (c : ascii) : option Z :=
  let b := byteZ c in
  if (48 <=? b) && (b <=? 57) then Some (b - 48) else None.

Fixpoint parseDigits (acc : Z) (s : string) : option Z :=
  match s with
  | "" => Some acc
  | String c s' =>
    match digitVal c with
    | Some d => parseDigits (acc * 10 + d) s'
    | None => None
    end
  end.

Definition minInt64 : Z := - 2 ^ 63.
Definition maxInt64 : Z := 2 ^ 63 - 1.

Definition inInt64 (z : Z) : bool := (minInt64 <=? z) && (z <=? maxInt64).

Definition Atoi (s : string) : option Z :=
  let '(neg, ds) :=
    match s with
    | String c s' =>
      if Ascii.eqb c "-" then (true, s')
      else if Ascii.eqb c "+" then (false, s')
      else (false, s)
    | "" => (false, s)
    end in
  match ds with
  | "" => None
  | _ =>
    match parseDigits 0 ds with
    | Some v => let z := if neg : bool then - v else v in
                if inInt64 z then Some z else None
    | None => None
    end
  end.

(** ** 64-bit arithmetic and package time *)

Definition wrap64 (z : Z) : Z := (z + 2 ^ 63) mod 2 ^ 64 - 2 ^ 63.
Definition sat64 (z : Z) : Z := Z.max minInt64 (Z.min maxInt64 z).

(** A [time.Time] as [time.Now] makes it: the wall clock in Unix seconds
    and the monotonic reading in nanoseconds. *)
Record Time := { unixSec : Z; monoNs : Z }.

Definition Second : Z := 1000000000.

(** [time.Since(t)] at the clock reading [now]: both carry a monotonic
    reading, and [subMono] saturates. *)
Definition Since (now t : Time) : Z := sat64 (monoNs now - monoNs t).

(** [time.Duration(n) * time.Second] *)
Definition DurationSeconds (n : Z) : Z := wrap64 (n * Second).

(** [float64(n)] for an [int] that is not negative *)
Definition float64 (n : Z) : float := PrimFloat.of_uint63 (Uint63.of_Z n).

(** ** Types of riot.go, twitch.go and the entry file *)

Record PlayerCacheEntry := {
  pGameName : string; pTagLine : string; PUUID : string;
  SummonerID : string; pCachedAt : Z }.

Record LeagueEntry := {
  QueueType : string; Tier : string; Rank : string;
  LeaguePoints : Z; leWins : Z; leLosses : Z }.

Record bannedChampion := { ChampionID : Z; PickTurn : Z; TeamID : Z }.
Record spectatorResponse := { BannedChampions : list bannedChampion }.

Record summonerV4Resp := { sID : string; sPuuid : string; sName : string }.
Record accountResp := { aPUUID : string; aGameName : string; aTagLine : string }.

Record StreamStatsCacheEntry := {
  Wins : Z; Losses : Z; Winrate : float;
  LPStart : gmap string Z; LPEnd : gmap string Z; CachedAt : Z }.

Record streamDatum := { UserName : string; Title : string; GameName : string }.

Record CommandConfig := {
  Type_ : string; Response_ : string; Endpoint : string; Cooldown : Z }.

(** What [json.Unmarshal] stores in an [interface{}]. *)
#[warnings="-register-all"]
Inductive json :=
| JNull
| JBool (b : bool)
| JNumber (f : float)
| JString (s : string)
| JArray (l : list json)
| JObject (m : list (string * json)).

(** [m[k]] on a decoded object: the nil interface when the key is absent. *)
Fixpoint jsonIndex (m : list (string * json)) (k : string) : json :=
  match m with
  | [] => JNull
  | (k', v) :: m' => if String.eqb k' k then v else jsonIndex m' k
  end.

(** Go errors are observed through [Error()] only. *)
Inductive result (A : Type) :=
| Ok (a : A)
| Err (e : string).
Arguments Ok {A} a.
Arguments Err {A} e.

(** ** The world outside the code *)

Inductive HttpResult :=
| BadURL                        (* http.NewRequest failed: the request is nil *)
| NetError (msg : string)       (* client.Do returned an error *)
| Response (status : Z) (body : string).

Record Env := {
  (* os.Getenv *)
  TWITCH_BOT_USERNAME : string;
  TWITCH_OAUTH_TOKEN : string;
  TWITCH_CHANNEL : string;
  SUMMONER_NAME : string;
  SUMMONER_TAG : string;
  TWITCH_CLIENT_ID : string;
  TWITCH_CLIENT_SECRET : string;
  RIOT_TOKEN : string;
  RIOT_PLATFORM : string;
  RIOT_REGION : string;
  (* the answer to the n-th outbound HTTP request, made to the given URL *)
  httpDo : nat -> string -> HttpResult;
  (* the n-th reading of the clock *)
  timeNow : nat -> Time;
  (* whether the n-th os.WriteFile succeeds *)
  writeFileOk : nat -> bool;
  (* whether net.Dial succeeds *)
  dialOk : bool;
  (* os.ReadFile("commands.json"); None when it fails *)
  commandsFile : option string;
  (* the members of the JSON object of commands.json, in the order of the text *)
  unmarshalCommands : string -> result (list (string * CommandConfig));
  (* the order in which range yields the entries of a map *)
  rangeCommands : gmap string CommandConfig -> list (string * CommandConfig);
  (* the access_token of a token response *)
  decodeAppToken : string -> result string;
  (* encoding/json; a decoder whose error the code ignores is total *)
  unmarshalPlayerCache : string -> gmap string PlayerCacheEntry;
  marshalPlayerCache : gmap string PlayerCacheEntry -> string;
  unmarshalAccount : string -> result accountResp;
  unmarshalSummoner : string -> result summonerV4Resp;
  (* the entries of the decoded map[string]string in the order range yields them *)
  unmarshalChampions : string -> result (list (string * string));
  unmarshalLeague : string -> list LeagueEntry;
  unmarshalSpectator : string -> spectatorResponse;
  unmarshalMatchIDs : string -> list string;
  unmarshalMatch : string -> list (string * json);
  decodeStreams : string -> result (list streamDatum);
  decodeStartedAt : string -> list string;
  (* time.Parse(time.RFC3339, s) followed by Unix() *)
  parseRFC3339Unix : string -> Z;
  (* the verb %.2f *)
  formatFloat2 : float -> string
}.

Record World := {
  requests : list string;        (* URLs requested so far, newest first *)
  clockReads : nat;
  fileWrites : nat;
  sent : list string;            (* frames written to the connection, newest first *)
  playersFile : option string;   (* players.json; None when os.Stat fails *)
  championsFile : option string; (* champions.json; None when it cannot be read *)
  TwitchAppToken : string;
  championsMap : option (gmap Z string);  (* None is the nil map *)
  streamCache : gmap string StreamStatsCacheEntry;
  playerCacheLock : bool;        (* a mutex is held or free *)
  championsMu : bool;
  streamCacheMu : bool
}.

Inductive Outcome (A : Type) :=
| Ret (a : A) (w : World)   (* the call returns *)
| Panic (w : World)         (* run-time panic; the process dies *)
| Blocked (w : World)       (* Lock on a mutex that is never released *)
| Exit (w : World).         (* log.Fatal *)
Arguments Ret {A} a w.
Arguments Panic {A} w.
Arguments Blocked {A} w.
Arguments Exit {A} w.

Definition M (A : Type) : Type := World -> Outcome A.

Definition ret {A} (a : A) : M A := fun w => Ret a w.

Definition bind {A B} (m : M A) (k : A -> M B) : M B :=
  fun w => match m w with
           | Ret a w' => k a w'
           | Panic w' => Panic w'
           | Blocked w' => Blocked w'
           | Exit w' => Exit w'
           end.

Notation "'do' x <- c ; k" := (bind c (fun x => k))
  (at level 10, x name, c at level 100, k at level 200).

Definition panic {A} : M A := fun w => Panic w.
Definition getWorld : M World := fun w => Ret w w.

Fixpoint mapM {A B} (f : A -> M B) (l : list A) : M (list B) :=
  match l with
  | [] => ret []
  | a :: l' => do b <- f a; do bs <- mapM f l'; ret (b :: bs)
  end.

Fixpoint foldM {A S} (f : S -> A -> M S) (s : S) (l : list A) : M S :=
  match l with
  | [] => ret s
  | a :: l' => do s' <- f s a; foldM f s' l'
  end.

Definition set_requests (f : list string -> list string) (w : World) : World :=
  {| requests := f (requests w); clockReads := clockReads w; fileWrites := fileWrites w;
     sent := sent w; playersFile := playersFile w; championsFile := championsFile w;
     TwitchAppToken := TwitchAppToken w; championsMap := championsMap w;
     streamCache := streamCache w; playerCacheLock := playerCacheLock w;
     championsMu := championsMu w; streamCacheMu := streamCacheMu w |}.

Definition set_clockReads (f : nat -> nat) (w : World) : World :=
  {| requests := requests w; clockReads := f (clockReads w); fileWrites := fileWrites w;
     sent := sent w; playersFile := playersFile w; championsFile := championsFile w;
     TwitchAppToken := TwitchAppToken w; championsMap := championsMap w;
     streamCache := streamCache w; playerCacheLock := playerCacheLock w;
     championsMu := championsMu w; streamCacheMu := streamCacheMu w |}.

Definition set_fileWrites (f : nat -> nat) (w : World) : World :=
  {| requests := requests w; clockReads := clockReads w; fileWrites := f (fileWrites w);
     sent := sent w; playersFile := playersFile w; championsFile := championsFile w;
     TwitchAppToken := TwitchAppToken w; championsMap := championsMap w;
     streamCache := streamCache w; playerCacheLock := playerCacheLock w;
     championsMu := championsMu w; streamCacheMu := streamCacheMu w |}.

Definition set_sent (f : list string -> list string) (w : World) : World :=
  {| requests := requests w; clockReads := clockReads w; fileWrites := fileWrites w;
     sent := f (sent w); playersFile := playersFile w; championsFile := championsFile w;
     TwitchAppToken := TwitchAppToken w; championsMap := championsMap w;
     streamCache := streamCache w; playerCacheLock := playerCacheLock w;
     championsMu := championsMu w; streamCacheMu := streamCacheMu w |}.

Definition set_playersFile (v : option string) (w : World) : World :=
  {| requests := requests w; clockReads := clockReads w; fileWrites := fileWrites w;
     sent := sent w; playersFile := v; championsFile := championsFile w;
     TwitchAppToken := TwitchAppToken w; championsMap := championsMap w;
     streamCache := streamCache w; playerCacheLock := playerCacheLock w;
     championsMu := championsMu w; streamCacheMu := streamCacheMu w |}.

Definition set_TwitchAppToken (v : string) (w : World) : World :=
  {| requests := requests w; clockReads := clockReads w; fileWrites := fileWrites w;
     sent := sent w; playersFile := playersFile w; championsFile := championsFile w;
     TwitchAppToken := v; championsMap := championsMap w;
     streamCache := streamCache w; playerCacheLock := playerCacheLock w;
     championsMu := championsMu w; streamCacheMu := streamCacheMu w |}.

Definition set_championsMap (v : option (gmap Z string)) (w : World) : World :=
  {| requests := requests w; clockReads := clockReads w; fileWrites := fileWrites w;
     sent := sent w; playersFile := playersFile w; championsFile := championsFile w;
     TwitchAppToken := TwitchAppToken w; championsMap := v;
     streamCache := streamCache w; playerCacheLock := playerCacheLock w;
     championsMu := championsMu w; streamCacheMu := streamCacheMu w |}.

Definition set_streamCache
  (f : gmap string StreamStatsCacheEntry -> gmap string StreamStatsCacheEntry)
  (w : World) : World :=
  {| requests := requests w; clockReads := clockReads w; fileWrites := fileWrites w;
     sent := sent w; playersFile := playersFile w; championsFile := championsFile w;
     TwitchAppToken := TwitchAppToken w; championsMap := championsMap w;
     streamCache := f (streamCache w); playerCacheLock := playerCacheLock w;
     championsMu := championsMu w; streamCacheMu := streamCacheMu w |}.

Definition set_playerCacheLock (b : bool) (w : World) : World :=
  {| requests := requests w; clockReads := clockReads w; fileWrites := fileWrites w;
     sent := sent w; playersFile := playersFile w; championsFile := championsFile w;
     TwitchAppToken := TwitchAppToken w; championsMap := championsMap w;
     streamCache := streamCache w; playerCacheLock := b;
     championsMu := championsMu w; streamCacheMu := streamCacheMu w |}.

Definition set_championsMu (b : bool) (w : World) : World :=
  {| requests := requests w; clockReads := clockReads w; fileWrites := fileWrites w;
     sent := sent w; playersFile := playersFile w; championsFile := championsFile w;
     TwitchAppToken := TwitchAppToken w; championsMap := championsMap w;
     streamCache := streamCache w; playerCacheLock := playerCacheLock w;
     championsMu := b; streamCacheMu := streamCacheMu w |}.

Definition set_streamCacheMu (b : bool) (w : World) : World :=
  {| requests := requests w; clockReads := clockReads w; fileWrites := fileWrites w;
     sent := sent w; playersFile := playersFile w; championsFile := championsFile w;
     TwitchAppToken := TwitchAppToken w; championsMap := championsMap w;
     streamCache := streamCache w; playerCacheLock := playerCacheLock w;
     championsMu := championsMu w; streamCacheMu := b |}.

(** [sync.Mutex]: [Lock] on a held mutex waits for an [Unlock] by another
    goroutine. The handlers run on the one goroutine of the dispatch loop,
    so a mutex found held there is never released. *)
Definition lockWith (held : World -> bool) (set : bool -> World -> World) : M unit :=
  fun w => if held w then Blocked w else Ret tt (set true w).

Definition unlockWith (set : bool -> World -> World) : M unit :=
  fun w => Ret tt (set false w).

(** [mu.Lock(); defer mu.Unlock()] around a function body. *)
Definition locked {A} (held : World -> bool) (set : bool -> World -> World)
  (body : M A) : M A :=
  do _ <- lockWith held set; do a <- body; do _ <- unlockWith set; ret a.

(** ** Reading a line (lines 105-119 of the entry file)

    What the loop makes of a line before it looks at the registry: the
    keepalive probe, a line without the marker, a user message with its
    sender and text, or a line on which an index expression is out of
    range. *)
Inductive Frame :=
| FPing
| FOther
| FBroken
| FMessage (user msg : string).

Definition classify (rawLine : string) : Frame :=
  let line := TrimSpace rawLine in
  if HasPrefix line "PING" then FPing
  else if Contains line "PRIVMSG" then
    let parts := Split line "PRIVMSG" in
    if (List.length parts <? 2)%nat then FOther
    else
      match parts !! 0%nat, parts !! 1%nat with
      | Some p0, Some p1 =>
        match Split p0 "!" !! 0%nat with
        | Some rawUser =>
          let user := TrimPrefix rawUser ":" in
          match SplitN p1 ":" 2 !! 1%nat with
          | Some msg => FMessage user msg
          | None => FBroken                (* SplitN(...)[1] *)
          end
        | None => FBroken
        end
      | _, _ => FBroken
      end
  else FOther.

Section Program.

Variable E : Env.

(** ** riot.go *)

(** [initEnv]: the three settings are read once, with their defaults. *)
Definition riotToken : string := RIOT_TOKEN E.
Definition platformStr : string :=
  if String.eqb (RIOT_PLATFORM E) "" then "na1" else RIOT_PLATFORM E.
Definition regionStr : string :=
  if String.eqb (RIOT_REGION E) "" then "americas" else RIOT_REGION E.

(** [http.NewRequest] and [client.Do] on [url]: the request is logged and
    the peer answers. *)
Definition httpGet (url : string) : M HttpResult :=
  fun w => Ret (httpDo E (List.length (requests w)) url) (set_requests (cons url) w).

Definition now : M Time :=
  fun w => Ret (timeNow E (clockReads w)) (set_clockReads S w).

Definition makeRequest (hostType path : string) : M (result string) :=
  if String.eqb riotToken "" then ret (Err "RIOT_TOKEN not set")
  else
    match (if String.eqb hostType "platform" then Some (platformStr ++ ".api.riotgames.com")
           else if String.eqb hostType "regional" then Some (regionStr ++ ".api.riotgames.com")
           else None) with
    | None => ret (Err ("invalid hostType: " ++ hostType))
    | Some host =>
      let url := "https://" ++ host ++ path in
      do r <- httpGet url;
      match r with
      | BadURL => panic            (* req.Header.Set on the nil request *)
      | NetError e => ret (Err e)
      | Response status b =>
        if negb (status =? 200)
        then ret (Err ("request failed " ++ Itoa status ++ ": " ++ b))
        else ret (Ok b)
      end
    end.

Definition urlEscape (s : string) : string := ReplaceAllSpaces s.

(** [os.WriteFile(playerCacheFile, b, 0644)], its error dropped.  A write
    that fails is taken to leave the file as it was. *)
Definition writePlayersFile (b : string) : M unit :=
  fun w =>
    let w' := set_fileWrites S w in
    if writeFileOk E (fileWrites w) then Ret tt (set_playersFile (Some b) w')
    else Ret tt w'.

Definition GetOrCachePlayer (gameName tagLine : string) : M (result string) :=
  locked playerCacheLock set_playerCacheLock (
    do w <- getWorld;
    let cache : gmap string PlayerCacheEntry :=
      match playersFile w with
      | Some data => unmarshalPlayerCache E data
      | None => ∅
      end in
    let key := gameName ++ "#" ++ tagLine in
    match cache !! key with
    | Some p => ret (Ok (PUUID p))
    | None =>
      let path := "/riot/account/v1/accounts/by-riot-id/"
                    ++ urlEscape gameName ++ "/" ++ urlEscape tagLine in
      do r <- makeRequest "regional" path;
      match r with
      | Err e => ret (Err e)
      | Ok data =>
        match unmarshalAccount E data with
        | Err e => ret (Err e)
        | Ok acc =>
          let summonerPath := "/lol/summoner/v4/summoners/by-puuid/" ++ aPUUID acc in
          do r2 <- makeRequest "platform" summonerPath;
          match r2 with
          | Err e => ret (Err e)
          | Ok summonerData =>
            match unmarshalSummoner E summonerData with
            | Err e => ret (Err e)
            | Ok s =>
              do t <- now;
              let cache' :=
                <[key := {| pGameName := aGameName acc; pTagLine := aTagLine acc;
                            PUUID := aPUUID acc; SummonerID := sID s;
                            pCachedAt := unixSec t |}]> cache in
              do _ <- writePlayersFile (marshalPlayerCache E cache');
              ret (Ok (aPUUID acc))
            end
          end
        end
      end
    end).

(** The loop of [LoadChampionMap] over the decoded entries. *)
Fixpoint convertChampions (m : gmap Z string) (l : list (string * string)) : gmap Z string :=
  match l with
  | [] => m
  | (idStr, name) :: l' =>
    match Atoi idStr with
    | None => convertChampions m l'
    | Some id => convertChampions (<[id := name]> m) l'
    end
  end.

Definition LoadChampionMap : M (result unit) :=
  locked championsMu set_championsMu (
    do w <- getWorld;
    match championsMap w with
    | Some _ => ret (Ok tt)
    | None =>
      match championsFile w with
      | None => ret (Err "failed to read champions.json")
      | Some data =>
        match unmarshalChampions E data with
        | Err e => ret (Err ("failed to parse champions.json: " ++ e))
        | Ok championsStrMap =>
          fun w' => Ret (Ok tt) (set_championsMap (Some (convertChampions ∅ championsStrMap)) w')
        end
      end
    end).

Definition unknownChampion (id : Z) : string := "Unknown(" ++ Itoa id ++ ")".

Definition GetChampionName (id : Z) : M string :=
  locked championsMu set_championsMu (
    do w <- getWorld;
    do loaded <-
      match championsMap w with
      | None =>
        do r <- LoadChampionMap;
        match r with
        | Err _ => ret false
        | Ok _ => ret true
        end
      | Some _ => ret true
      end;
    if loaded : bool then
      do w' <- getWorld;
      match championsMap w' with
      | Some m =>
        match m !! id with
        | Some name => ret name
        | None => ret (unknownChampion id)
        end
      | None => ret (unknownChampion id)
      end
    else ret (unknownChampion id)).

Definition GetCurrentRank (puuid : string) : M (result (list LeagueEntry)) :=
  let path := "/lol/league/v4/entries/by-puuid/" ++ puuid in
  do r <- makeRequest "platform" path;
  match r with
  | Err e => ret (Err e)
  | Ok data => ret (Ok (unmarshalLeague E data))
  end.

Definition GetActiveMatchBans (puuid : string) : M (result (list string)) :=
  let path := "/lol/spectator/v5/active-games/by-summoner/" ++ puuid in
  do r <- makeRequest "platform" path;
  match r with
  | Err e =>
    if Contains e "404" then ret (Ok []) else ret (Err e)
  | Ok data =>
    let resp := unmarshalSpectator E data in
    do bans <- mapM (fun b => GetChampionName (ChampionID b)) (BannedChampions resp);
    ret (Ok bans)
  end.

(** The inner loop of [GetStreamStats] over the participants of one match:
    [Some true] counts a win, [Some false] a loss, [None] leaves the
    counters alone. *)
Fixpoint findParticipant (puuid : string) (participants : list json) : option bool :=
  match participants with
  | [] => None
  | JObject participant :: rest =>
    match jsonIndex participant "puuid" with
    | JString p =>
      if String.eqb p puuid then
        match jsonIndex participant "win" with
        | JBool true => Some true
        | _ => Some false
        end
      else findParticipant puuid rest
    | _ => findParticipant puuid rest
    end
  | _ :: rest => findParticipant puuid rest
  end.

(** One round of the loop over [matchIDs]. *)
Definition countMatch (puuid : string) (acc : Z * Z) (matchID : string) : M (Z * Z) :=
  let '(wins, losses) := acc in
  do r <- makeRequest "regional" ("/lol/match/v5/matches/" ++ matchID);
  match r with
  | Err _ => ret (wins, losses)
  | Ok matchData =>
    match jsonIndex (unmarshalMatch E matchData) "info" with
    | JObject info =>
      match jsonIndex info "participants" with
      | JArray participants =>
        match findParticipant puuid participants with
        | Some true => ret (wins + 1, losses)
        | Some false => ret (wins, losses + 1)
        | None => ret (wins, losses)
        end
      | _ => ret (wins, losses)
      end
    | _ => ret (wins, losses)
    end
  end.

Definition computeWinrate (wins losses : Z) : float :=
  let total := wins + losses in
  if 0 <? total then (float64 wins / float64 total * 100)%float else 0%float.

Definition emptyStats : StreamStatsCacheEntry :=
  {| Wins := 0; Losses := 0; Winrate := 0%float; LPStart := ∅; LPEnd := ∅; CachedAt := 0 |}.

Fixpoint fillLP (wins losses : Z) (ranks : list LeagueEntry)
  (lp : gmap string Z * gmap string Z) : gmap string Z * gmap string Z :=
  match ranks with
  | [] => lp
  | r :: ranks' =>
    fillLP wins losses ranks'
      (<[QueueType r := wrap64 (LeaguePoints r - wrap64 (wins - losses))]> (fst lp),
       <[QueueType r := LeaguePoints r]> (snd lp))
  end.

Definition GetStreamStats (puuid : string) (startTime : Z) : M (result StreamStatsCacheEntry) :=
  do t0 <- now;
  let endTime := unixSec t0 in
  let key := puuid ++ "_" ++ Itoa startTime in
  do _ <- lockWith streamCacheMu set_streamCacheMu;
  do w <- getWorld;
  do _ <- unlockWith set_streamCacheMu;
  match streamCache w !! key with
  | Some val => ret (Ok val)
  | None =>
    let path := "/lol/match/v5/matches/by-puuid/" ++ puuid ++ "/ids?startTime="
                  ++ Itoa startTime ++ "&endTime=" ++ Itoa endTime in
    do r <- makeRequest "regional" path;
    match r with
    | Err e => ret (Err e)
    | Ok data =>
      let matchIDs := unmarshalMatchIDs E data in
      do wl <- foldM (countMatch puuid) (0, 0) matchIDs;
      let '(wins, losses) := wl in
      let winrate := computeWinrate wins losses in
      do rk <- GetCurrentRank puuid;
      let ranks := match rk with Ok l => l | Err _ => [] end in
      let '(lpStart, lpEnd) := fillLP wins losses ranks (∅, ∅) in
      do t1 <- now;
      let entry := {| Wins := wins; Losses := losses; Winrate := winrate;
                      LPStart := lpStart; LPEnd := lpEnd; CachedAt := unixSec t1 |} in
      do _ <- lockWith streamCacheMu set_streamCacheMu;
      do _ <- (fun w' => Ret tt (set_streamCache (insert key entry) w'));
      do _ <- unlockWith set_streamCacheMu;
      ret (Ok entry)
    end
  end.

(** ** twitch.go *)

(** [RefreshAppToken], after its check of the two settings. *)
Definition RefreshAppToken : M unit :=
  if String.eqb (TWITCH_CLIENT_ID E) "" || String.eqb (TWITCH_CLIENT_SECRET E) ""
  then fun w => Exit w
  else
    let url := "https://id.twitch.tv/oauth2/token?client_id=" ++ TWITCH_CLIENT_ID E
                 ++ "&client_secret=" ++ TWITCH_CLIENT_SECRET E
                 ++ "&grant_type=client_credentials" in
    do r <- httpGet url;
    match r with
    | BadURL => ret tt               (* http.Post reports it as an error *)
    | NetError _ => ret tt
    | Response _ body =>
      match decodeAppToken E body with
      | Err _ => ret tt
      | Ok tok => fun w => Ret tt (set_TwitchAppToken tok w)
      end
    end.

(** [StartAppTokenRefresher]: the first refresh runs in the caller.  The
    later ones run on a goroutine of their own and touch [TwitchAppToken]
    only; they are not part of this sequential model. *)
Definition StartAppTokenRefresher : M unit := RefreshAppToken.

Definition GetTwitchStreamInfo (channel : string) : M (result (string * string)) :=
  do w <- getWorld;
  if String.eqb (TWITCH_CLIENT_ID E) "" || String.eqb (TwitchAppToken w) ""
  then ret (Err "Twitch App Token not set")
  else
    do r <- httpGet ("https://api.twitch.tv/helix/streams?user_login=" ++ channel);
    match r with
    | BadURL => panic
    | NetError e => ret (Err e)
    | Response _ body =>
      match decodeStreams E body with
      | Err e => ret (Err e)
      | Ok [] => ret (Ok ("Offline", ""))
      | Ok (d :: _) => ret (Ok (Title d, GameName d))
      end
    end.

Definition GetTwitchStreamStart (channel : string) : M (result Z) :=
  do w <- getWorld;
  if String.eqb (TWITCH_CLIENT_ID E) "" || String.eqb (TwitchAppToken w) ""
  then ret (Err "Twitch App Token not set")
  else
    do r <- httpGet ("https://api.twitch.tv/helix/streams?user_login=" ++ channel);
    match r with
    | BadURL => panic
    | NetError e => ret (Err e)
    | Response _ body =>
      match decodeStartedAt E body with
      | [] => ret (Err "stream not live")
      | startedAt :: _ => ret (Ok (parseRFC3339Unix E startedAt))
      end
    end.

(** ** The entry file *)

(** The second loop of [loadCommands] (lines 33-44), over the entries in
    the order [range] yields them. *)
Fixpoint normalizeCommands (acc : gmap string CommandConfig)
  (entries : list (string * CommandConfig)) : gmap string CommandConfig :=
  match entries with
  | [] => acc
  | (k, v) :: rest => normalizeCommands (<[normalize k := v]> acc) rest
  end.

(** [json.Unmarshal] into a map: the members are stored in the order of the
    text, a repeated key overwrites. *)
Fixpoint storeMembers (acc : gmap string CommandConfig)
  (members : list (string * CommandConfig)) : gmap string CommandConfig :=
  match members with
  | [] => acc
  | (k, v) :: rest => storeMembers (<[k := v]> acc) rest
  end.

Definition loadCommands : M (gmap string CommandConfig) :=
  match commandsFile E with
  | None => fun w => Exit w
  | Some file =>
    match unmarshalCommands E file with
    | Err _ => fun w => Exit w
    | Ok members =>
      let commands := storeMembers ∅ members in
      ret (normalizeCommands ∅ (rangeCommands E commands))
    end
  end.

(** [fmt.Fprintf(conn, ...)]: the frame goes out; a write error is not looked at. *)
Definition write (frame : string) : M unit :=
  fun w => Ret tt (set_sent (cons frame) w).

Definition say (channel msg : string) : M unit :=
  write ("PRIVMSG #" ++ channel ++ " :" ++ msg ++ CRLF).

(** [l[i]]: out of range is a run-time panic. *)
Definition index {A} (l : list A) (i : nat) : M A :=
  match l !! i with
  | Some a => ret a
  | None => panic
  end.

(** The [switch cfg.Type] of the loop (lines 140-180). *)
Definition dispatch (channel puuid : string) (cfg : CommandConfig) (user : string) : M unit :=
  if String.eqb (Type_ cfg) "static" then
    say channel ("@" ++ user ++ " " ++ Response_ cfg)
  else if String.eqb (Type_ cfg) "api" then
    if String.eqb (Endpoint cfg) "twitch_stream_info" then
      do r <- GetTwitchStreamInfo channel;
      match r with
      | Err _ => say channel ("@" ++ user ++ " Error fetching stream info.")
      | Ok (title, game) =>
        if String.eqb title "Offline"
        then say channel ("@" ++ user ++ " Stream is offline.")
        else say channel ("@" ++ user ++ " Title: " ++ title ++ " | Game: " ++ game)
      end
    else if String.eqb (Endpoint cfg) "riot_rank_info" then
      do r <- GetCurrentRank puuid;
      (* an error is logged and control falls through with the nil slice *)
      let rank := match r with Ok l => l | Err _ => [] end in
      do r0 <- index rank 0;
      say channel ("@" ++ user ++ " Current Rank: " ++ Tier r0 ++ " " ++ Rank r0
                     ++ " " ++ Itoa (LeaguePoints r0))
    else if String.eqb (Endpoint cfg) "stream_stats_info" then
      do r <- GetTwitchStreamStart channel;
      do start <-
        match r with
        | Err _ =>
          do _ <- say channel ("@" ++ user ++ " Error fetching stream info.");
          ret 0
        | Ok start => ret start
        end;
      do st <- GetStreamStats puuid start;
      match st with
      | Err _ => say channel ("@" ++ user ++ " Error Fetching stream stats.")
      | Ok stats =>
        say channel ("@" ++ user ++ " Wins: " ++ Itoa (Wins stats) ++ " | Loss: "
                       ++ Itoa (Losses stats) ++ " | Winrate: "
                       ++ formatFloat2 E (Winrate stats) ++ "% ")
      end
    else if String.eqb (Endpoint cfg) "current_bans_info" then
      do r <- GetActiveMatchBans puuid;
      match r with
      | Err _ => say channel ("@" ++ user ++ " Not in an Active Match")
      | Ok bans => say channel ("@" ++ user ++ " Banned Champions: " ++ Join bans ", ")
      end
    else ret tt
  else ret tt.

(** One round of the [for] loop of [main] on a line that was read
    (lines 105-183); the result is the cooldown table [lastUsed]. *)
Definition handleLine (channel puuid : string) (commands : gmap string CommandConfig)
  (lastUsed : gmap string Time) (rawLine : string) : M (gmap string Time) :=
  match classify rawLine with
  | FPing =>
    do _ <- write ("PONG :tmi.twitch.tv" ++ CRLF);
    ret lastUsed
  | FOther => ret lastUsed
  | FBroken => panic
  | FMessage user msg =>
    let command := normalize msg in
    match commands !! command with
    | None => ret lastUsed
    | Some cfg =>
      do cooling <-
        match lastUsed !! command with
        | Some t =>
          do n <- now;
          ret (Since n t <? DurationSeconds (Cooldown cfg))
        | None => ret false
        end;
      if cooling : bool then ret lastUsed
      else
        do _ <- dispatch channel puuid cfg user;
        do t <- now;
        ret (<[command := t]> lastUsed)
    end
  end.

(** The loop itself, on the lines the connection delivers before the read
    fails. *)
Fixpoint mainLoop (channel puuid : string) (commands : gmap string CommandConfig)
  (lastUsed : gmap string Time) (lines : list string) : M (gmap string Time) :=
  match lines with
  | [] => ret lastUsed
  | l :: rest =>
    do lastUsed' <- handleLine channel puuid commands lastUsed l;
    mainLoop channel puuid commands lastUsed' rest
  end.

Definition main (lines : list string) : M unit :=
  let username := TWITCH_BOT_USERNAME E in
  let oauth := TWITCH_OAUTH_TOKEN E in
  let channel := TWITCH_CHANNEL E in
  let summoner := SUMMONER_NAME E in
  let tag := SUMMONER_TAG E in
  if String.eqb username "" || String.eqb oauth "" || String.eqb channel ""
     || String.eqb summoner ""
  then fun w => Exit w
  else
    do r <- GetOrCachePlayer summoner tag;
    match r with
    | Err _ => fun w => Exit w
    | Ok puuid =>
      do commands <- loadCommands;
      do _ <- StartAppTokenRefresher;
      do _ <- LoadChampionMap;
      if negb (dialOk E) then fun w => Exit w
      else
        do _ <- write ("PASS " ++ oauth ++ CRLF);
        do _ <- write ("NICK " ++ username ++ CRLF);
        do _ <- write ("JOIN #" ++ channel ++ CRLF);
        do _ <- mainLoop channel puuid commands ∅ lines;
        ret tt
    end.

End Program.


Module Scenario.

Definition static (response : string) (cooldown : Z) : CommandConfig :=
  {| Type_ := "static"; Response_ := response; Endpoint := ""; Cooldown := cooldown |}.
Definition api (endpoint : string) (cooldown : Z) : CommandConfig :=
  {| Type_ := "api"; Response_ := ""; Endpoint := endpoint; Cooldown := cooldown |}.

Definition gold : LeagueEntry :=
  {| QueueType := "RANKED_SOLO_5x5"; Tier := "GOLD"; Rank := "II";
     LeaguePoints := 50; leWins := 10; leLosses := 8 |}.

Definition theAccount : accountResp :=
  {| aPUUID := "p-1"; aGameName := "Faker"; aTagLine := "KR1" |}.
Definition theSummoner : summonerV4Resp :=
  {| sID := "s-1"; sPuuid := "p-1"; sName := "Faker" |}.

(** Readings of the clock one second apart. *)
Definition tick (n : nat) : Time :=
  {| unixSec := 1700000000 + Z.of_nat n; monoNs := Z.of_nat n * Second |}.

(** An environment with stub decoders: a response body is a tag that
    names what it decodes to. *)
Definition env (http : nat -> string -> HttpResult)
  (members : list (string * CommandConfig))
  (order : gmap string CommandConfig -> list (string * CommandConfig))
  (writes : nat -> bool)
  (marshal : gmap string PlayerCacheEntry -> string)
  (unmarshal : string -> gmap string PlayerCacheEntry) : Env :=
  {| TWITCH_BOT_USERNAME := "bot"; TWITCH_OAUTH_TOKEN := "oauth:x";
     TWITCH_CHANNEL := "chan"; SUMMONER_NAME := "Faker"; SUMMONER_TAG := "KR1";
     TWITCH_CLIENT_ID := "cid"; TWITCH_CLIENT_SECRET := "sec";
     RIOT_TOKEN := "RGAPI-1"; RIOT_PLATFORM := ""; RIOT_REGION := "";
     httpDo := http; timeNow := tick; writeFileOk := writes; dialOk := true;
     commandsFile := Some "commands";
     unmarshalCommands := fun _ => Ok members;
     rangeCommands := order;
     decodeAppToken := fun _ => Ok "app-token";
     unmarshalPlayerCache := unmarshal;
     marshalPlayerCache := marshal;
     unmarshalAccount := fun _ => Ok theAccount;
     unmarshalSummoner := fun _ => Ok theSummoner;
     unmarshalChampions := fun _ => Ok [("1", "Aatrox")];
     unmarshalLeague := fun b => if String.eqb b "gold" then [gold] else [];
     unmarshalSpectator := fun b =>
       {| BannedChampions :=
            if String.eqb b "bans"
            then [ {| ChampionID := 1; PickTurn := 1; TeamID := 100 |};
                   {| ChampionID := 999; PickTurn := 2; TeamID := 200 |} ]
            else [] |};
     unmarshalMatchIDs := fun _ => [];
     unmarshalMatch := fun _ => [];
     decodeStreams := fun _ => Ok [];
     decodeStartedAt := fun _ => [];
     parseRFC3339Unix := fun _ => 1700000000;
     formatFloat2 := fun _ => "0.00" |}.

Definition world (players champions : option string) : World :=
  {| requests := []; clockReads := 0; fileWrites := 0; sent := [];
     playersFile := players; championsFile := champions;
     TwitchAppToken := ""; championsMap := None; streamCache := ∅;
     playerCacheLock := false; championsMu := false; streamCacheMu := false |}.

(** A peer that answers every request with status 200 and the body [ok],
    except that requests whose URL contains [bad] get [answer]. *)
Definition peer (bad : string) (answer : HttpResult) (n : nat) (url : string) : HttpResult :=
  if Contains url bad then answer else Response 200 "ok".

Definition privmsg (user text : string) : string :=
  ":" ++ user ++ "!" ++ user ++ "@" ++ user ++ ".tmi.twitch.tv PRIVMSG #chan :"
    ++ text ++ CRLF.

Definition noCodec : gmap string PlayerCacheEntry -> string := fun _ => "{}".
Definition noCache : string -> gmap string PlayerCacheEntry := fun _ => ∅.

Definition registry : list (string * CommandConfig) :=
  [ ("!hello", static "hi" 2); ("!rank", api "riot_rank_info" 2);
    ("!stats", api "stream_stats_info" 2); ("!bans", api "current_bans_info" 2);
    ("!title", api "twitch_stream_info" 2) ].

End Scenario.

(** ** Predicates used in the statements *)

(** Every byte of the string is below 128. *)
Definition asciiBytes (l : list ascii) : bool := forallb (fun c => byteZ c <? 128) l.
Definition allASCII (s : string) : bool := asciiBytes (list_ascii_of_string s).

(** * Properties *)

(** Closed statements about concrete runs are settled by evaluation, one
    conjunct at a time. *)
Ltac by_evaluation :=
  repeat match goal with |- _ /\ _ => split end; vm_compute; reflexivity.

(** ** Normalization *)

Section NormalizeFacts.

Let g (c : ascii) : Z * string := (byteZ c, String c "").
Let spA (c : ascii) : bool := IsSpace (byteZ c).
Let lowerA (c : ascii) : ascii := zbyte (unicodeToLower (byteZ c)).

Fixpoint dropWhileA (p : ascii -> bool) (l : list ascii) : list ascii :=
  match l with
  | [] => []
  | c :: l' => if p c then dropWhileA p l' else l
  end.

Definition trimA (p : ascii -> bool) (l : list ascii) : list ascii :=
  rev (dropWhileA p (rev (dropWhileA p l))).

Lemma byteZ_range c : 0 <= byteZ c < 256.
Proof.
  unfold byteZ. pose proof (N_ascii_bounded c). lia.
Qed.

Lemma zbyte_byteZ c : zbyte (byteZ c) = c.
Proof.
  unfold zbyte, byteZ. rewrite N2Z.id. apply ascii_N_embedding.
Qed.

Lemma byteZ_zbyte z : 0 <= z < 256 -> byteZ (zbyte z) = z.
Proof.
  intros Hz. unfold zbyte, byteZ.
  rewrite N_ascii_embedding by lia. lia.
Qed.

Lemma concat_empty_cons x xs :
  String.concat "" (x :: xs) = (x ++ String.concat "" xs)%string.
Proof.
  destruct xs as [|y ys]; [|reflexivity].
  cbn [String.concat].
  induction x as [|c x IH]; [reflexivity|].
  change (String c x = String c (x ++ "")%string). f_equal. exact IH.
Qed.

Lemma concat_singletons l :
  String.concat "" (List.map (fun c => String c "") l) = string_of_list_ascii l.
Proof.
  induction l as [|c l IH]; [reflexivity|].
  change (List.map (fun c0 => String c0 "") (c :: l))
    with (String c "" :: List.map (fun c0 => String c0 "") l).
  rewrite concat_empty_cons, IH. reflexivity.
Qed.

Lemma runes_ascii l :
  asciiBytes l = true ->
  runes (string_of_list_ascii l) = List.map g l.
Proof.
  unfold runes. induction l as [|c l IH]; intros H; [reflexivity|].
  simpl in H. apply andb_true_iff in H as [Hc Hl].
  cbn [string_of_list_ascii rangeString].
  unfold DecodeRuneInString, byteAt. cbn [String.get fmap option_fmap option_map].
  unfold RuneSelf. rewrite Hc. cbn [Nat.sub].
  rewrite (IH Hl). unfold g, takeS. simpl.
  destruct (string_of_list_ascii l); reflexivity.
Qed.

Lemma dropWhileSpace_map l :
  dropWhileSpace (List.map g l) = List.map g (dropWhileA spA l).
Proof.
  induction l as [|c l IH]; [reflexivity|].
  cbn [List.map dropWhileSpace dropWhileA]. unfold spA at 1. cbn [g fst].
  destruct (IsSpace (byteZ c)); [exact IH | reflexivity].
Qed.

Lemma asciiBytes_forall l :
  asciiBytes l = true <-> (forall c, In c l -> byteZ c < 128).
Proof.
  unfold asciiBytes. rewrite forallb_forall.
  split; intros H c Hc; specialize (H c Hc); lia.
Qed.

Lemma dropWhileA_incl p l c : In c (dropWhileA p l) -> In c l.
Proof.
  induction l as [|a l IH]; [trivial|].
  cbn [dropWhileA]. destruct (p a); [right; auto | trivial].
Qed.

Lemma trimA_incl p l c : In c (trimA p l) -> In c l.
Proof.
  unfold trimA. intros H.
  apply in_rev, dropWhileA_incl, in_rev, dropWhileA_incl in H. exact H.
Qed.

Lemma asciiBytes_trimA p l : asciiBytes l = true -> asciiBytes (trimA p l) = true.
Proof.
  rewrite !asciiBytes_forall. intros H c Hc. apply H, (trimA_incl p), Hc.
Qed.

Lemma TrimSpace_ascii l :
  asciiBytes l = true ->
  TrimSpace (string_of_list_ascii l) = string_of_list_ascii (trimA spA l).
Proof.
  intros H. unfold TrimSpace, trimA.
  rewrite (runes_ascii l H), dropWhileSpace_map.
  rewrite <- List.map_rev, dropWhileSpace_map, <- List.map_rev, List.map_map.
  apply concat_singletons.
Qed.

(** [strings.Map] on an ASCII string, for a mapping that keeps ASCII in ASCII. *)
Lemma Map_ascii f l :
  asciiBytes l = true ->
  (forall b, 0 <= b < 128 -> 0 <= f b < 128) ->
  Map f (string_of_list_ascii l)
  = string_of_list_ascii (List.map (fun c => zbyte (f (byteZ c))) l).
Proof.
  intros H Hf. unfold Map. rewrite (runes_ascii l H), List.map_map.
  rewrite <- concat_singletons, List.map_map. f_equal.
  apply List.map_ext_in. intros c Hc. cbn [g fst].
  assert (Hb : 0 <= byteZ c < 128).
  { pose proof (byteZ_range c). apply asciiBytes_forall with (c := c) in H; [lia | exact Hc]. }
  specialize (Hf _ Hb). cbv zeta.
  replace (f (byteZ c) <? 0) with false by (symmetry; apply Z.ltb_ge; lia).
  unfold EncodeRune.
  replace (0 <=? f (byteZ c)) with true by (symmetry; apply Z.leb_le; lia).
  replace (f (byteZ c) <? 128) with true by (symmetry; apply Z.ltb_lt; lia).
  reflexivity.
Qed.

Lemma unicodeToLower_ascii b : 0 <= b < 128 -> 0 <= unicodeToLower b < 128.
Proof.
  intros Hb. unfold unicodeToLower.
  destruct (65 <=? b) eqn:H1; destruct (b <=? 90) eqn:H2; cbn [andb];
    try (apply Z.leb_le in H2); try (apply Z.leb_le in H1); try lia;
    (destruct (b =? 304) eqn:H3; [apply Z.eqb_eq in H3; lia|]);
    (destruct (b =? 8490) eqn:H4; [apply Z.eqb_eq in H4; lia|]); lia.
Qed.

Lemma dropNonASCII_ascii b : 0 <= b < 128 -> dropNonASCII b = b.
Proof.
  intros Hb. unfold dropNonASCII.
  replace (127 <? b) with false by (symmetry; apply Z.ltb_ge; lia). reflexivity.
Qed.

Lemma asciiBytes_lower l :
  asciiBytes l = true -> asciiBytes (List.map lowerA l) = true.
Proof.
  rewrite !asciiBytes_forall. intros H c Hc.
  apply in_map_iff in Hc as [a [<- Ha]].
  pose proof (byteZ_range a). specialize (H a Ha).
  pose proof (unicodeToLower_ascii (byteZ a)) as Hl.
  unfold lowerA. rewrite byteZ_zbyte; lia.
Qed.

(** On ASCII input the three passes act byte by byte. *)
Lemma normalize_ascii l :
  asciiBytes l = true ->
  normalize (string_of_list_ascii l)
  = string_of_list_ascii (List.map lowerA (trimA spA l)).
Proof.
  intros H. unfold normalize, ToLower.
  rewrite (TrimSpace_ascii l H).
  pose proof (asciiBytes_trimA spA l H) as Ht.
  rewrite (Map_ascii unicodeToLower _ Ht unicodeToLower_ascii).
  fold lowerA.
  rewrite (Map_ascii dropNonASCII _ (asciiBytes_lower _ Ht)).
  - f_equal. rewrite <- (List.map_id (List.map lowerA (trimA spA l))) at 2.
    apply List.map_ext_in. intros c Hc.
    pose proof (asciiBytes_lower _ Ht) as Hlow.
    apply asciiBytes_forall with (c := c) in Hlow; [|exact Hc].
    pose proof (byteZ_range c).
    rewrite dropNonASCII_ascii by lia. apply zbyte_byteZ.
  - intros b Hb. rewrite dropNonASCII_ascii; lia.
Qed.

Lemma dropWhileA_idem p l : dropWhileA p (dropWhileA p l) = dropWhileA p l.
Proof.
  induction l as [|c l IH]; [reflexivity|].
  cbn [dropWhileA]. destruct (p c) eqn:Hc; [exact IH|].
  cbn [dropWhileA]. now rewrite Hc.
Qed.

Lemma dropWhileA_head p l x m : dropWhileA p l = x :: m -> p x = false.
Proof.
  induction l as [|c l IH]; [discriminate|].
  cbn [dropWhileA]. destruct (p c) eqn:Hc; [exact IH|].
  intros [= <- _]. exact Hc.
Qed.

Lemma dropWhileA_snoc p a x :
  p x = false -> dropWhileA p (a ++ [x])%list = (dropWhileA p a ++ [x])%list.
Proof.
  intros Hx. induction a as [|c a IH].
  - cbn. now rewrite Hx.
  - cbn [app dropWhileA]. destruct (p c); [exact IH | reflexivity].
Qed.

Lemma trimA_shape p l :
  trimA p l = match dropWhileA p l with
              | [] => []
              | x :: m => x :: rev (dropWhileA p (rev m))
              end.
Proof.
  unfold trimA. destruct (dropWhileA p l) as [|x m] eqn:Hd; [reflexivity|].
  pose proof (dropWhileA_head p l x m Hd) as Hx.
  cbn [rev]. rewrite (dropWhileA_snoc p (rev m) x Hx).
  rewrite rev_app_distr. reflexivity.
Qed.

Lemma trimA_idem p l : trimA p (trimA p l) = trimA p l.
Proof.
  rewrite (trimA_shape p l).
  destruct (dropWhileA p l) as [|x m] eqn:Hd; [reflexivity|].
  pose proof (dropWhileA_head p l x m Hd) as Hx.
  rewrite trimA_shape. cbn [dropWhileA]. rewrite Hx.
  now rewrite rev_involutive, dropWhileA_idem.
Qed.

Lemma dropWhileA_map p f l :
  (forall c, p (f c) = p c) ->
  dropWhileA p (List.map f l) = List.map f (dropWhileA p l).
Proof.
  intros Hf. induction l as [|c l IH]; [reflexivity|].
  cbn [List.map dropWhileA]. rewrite Hf. destruct (p c); [exact IH | reflexivity].
Qed.

Lemma trimA_map p f l :
  (forall c, p (f c) = p c) ->
  trimA p (List.map f l) = List.map f (trimA p l).
Proof.
  intros Hf. unfold trimA.
  now rewrite (dropWhileA_map p f l Hf), <- List.map_rev,
    (dropWhileA_map p f _ Hf), <- List.map_rev.
Qed.

Lemma lowerA_idem c : lowerA (lowerA c) = lowerA c.
Proof.
  destruct c as [[] [] [] [] [] [] [] []]; vm_compute; reflexivity.
Qed.

Lemma spA_lowerA c : spA (lowerA c) = spA c.
Proof.
  destruct c as [[] [] [] [] [] [] [] []]; vm_compute; reflexivity.
Qed.

Lemma normalize_ascii_twice l :
  List.map lowerA (trimA spA (List.map lowerA (trimA spA l)))
  = List.map lowerA (trimA spA l).
Proof.
  rewrite (trimA_map spA lowerA _ spA_lowerA), trimA_idem, List.map_map.
  apply List.map_ext. intros c. apply lowerA_idem.
Qed.

Lemma normalize_idempotent_bytes l :
  asciiBytes l = true ->
  normalize (normalize (string_of_list_ascii l)) = normalize (string_of_list_ascii l).
Proof.
  intros H. rewrite (normalize_ascii l H).
  rewrite normalize_ascii
    by (apply asciiBytes_lower, asciiBytes_trimA, H).
  f_equal. apply normalize_ascii_twice.
Qed.

Lemma list_ascii_app a b :
  list_ascii_of_string (a ++ b)%string
  = (list_ascii_of_string a ++ list_ascii_of_string b)%list.
Proof.
  induction a as [|c a IH]; [reflexivity|].
  change (String c a ++ b)%string with (String c (a ++ b)%string).
  cbn [list_ascii_of_string app]. now rewrite IH.
Qed.

(** Whatever goes in, [strings.Map] with the ASCII filter gives ASCII. *)
Lemma Map_dropNonASCII_allASCII t : allASCII (Map dropNonASCII t) = true.
Proof.
  unfold Map, allASCII. induction (runes t) as [|rc rs IH]; [reflexivity|].
  cbn [List.map]. rewrite concat_empty_cons, list_ascii_app.
  unfold asciiBytes in *. rewrite forallb_app, IH, andb_true_r.
  cbv zeta. unfold dropNonASCII at 1 2.
  destruct (127 <? fst rc) eqn:Hhi; [reflexivity|].
  destruct (fst rc <? 0) eqn:Hneg; [reflexivity|].
  apply Z.ltb_ge in Hhi, Hneg. unfold EncodeRune.
  replace (0 <=? fst rc) with true by (symmetry; apply Z.leb_le; lia).
  replace (fst rc <? 128) with true by (symmetry; apply Z.ltb_lt; lia).
  cbn. rewrite byteZ_zbyte by lia.
  replace (fst rc <? 128) with true by (symmetry; apply Z.ltb_lt; lia).
  reflexivity.
Qed.

Lemma normalize_allASCII s : allASCII (normalize s) = true.
Proof. apply Map_dropNonASCII_allASCII. Qed.

End NormalizeFacts.

(** From the second pass on the result no longer changes, for every input. *)
Lemma normalize_stable_after_second_pass s :
  normalize (normalize (normalize s)) = normalize (normalize s).
Proof.
  pose proof (normalize_allASCII s) as H. unfold allASCII in H.
  rewrite <- (string_of_list_ascii_of_string (normalize s)).
  apply normalize_idempotent_bytes, H.
Qed.

(** An e with acute accent (bytes C3 A9), a space and the letter a. *)
Definition accentedInput : string := String (zbyte 195) (String (zbyte 169) " a").

(** C4, as stated, fails: normalization is not idempotent on every input.
    On the bytes C3 A9 20 61 the first pass finds no white space at either
    end, lower-cases, and removes the two non-ASCII bytes, which leaves a
    leading space; the second pass trims it. *)
Lemma normalize_not_idempotent :
  normalize accentedInput = " a"
  /\ normalize (normalize accentedInput) = "a"
  /\ ~ (forall s, normalize (normalize s) = normalize s).
Proof.
  assert (H1 : normalize accentedInput = " a") by (vm_compute; reflexivity).
  assert (H2 : normalize (normalize accentedInput) = "a") by (vm_compute; reflexivity).
  split; [exact H1 | split; [exact H2 |]].
  intros H. specialize (H accentedInput). rewrite H1 in H2. rewrite H1 in H.
  rewrite H in H2. discriminate H2.
Qed.

(** C4, amended: normalization is idempotent on every input that consists
    of ASCII bytes only. *)
Theorem normalize_idempotent_on_ascii (s : string) :
  allASCII s = true -> normalize (normalize s) = normalize s.
Proof.
  intros H. unfold allASCII in H.
  rewrite <- (string_of_list_ascii_of_string s).
  apply normalize_idempotent_bytes, H.
Qed.

Lemma normalize_idempotent_on_ascii_witness :
  allASCII "  !HeLLo World " = true
  /\ normalize (normalize "  !HeLLo World ") = normalize "  !HeLLo World ".
Proof.
  split; [reflexivity | apply normalize_idempotent_on_ascii; reflexivity].
Defined.

(** ** The command registry *)

(** The value stored last for [tok] by the loop of [loadCommands]. *)
Lemma normalizeCommands_last acc l1 k v l2 :
  (forall k' v', In (k', v') l2 -> normalize k' <> normalize k) ->
  normalizeCommands acc (l1 ++ (k, v) :: l2)%list !! normalize k = Some v.
Proof.
  revert acc. induction l1 as [|[k1 v1] l1 IH]; intros acc Hl2.
  - cbn [app normalizeCommands].
    assert (Hkeep : forall l acc', (forall k' v', In (k', v') l -> normalize k' <> normalize k) ->
              normalizeCommands acc' l !! normalize k = acc' !! normalize k).
    { clear. induction l as [|[k' v'] l IHl]; intros acc' Hl; [reflexivity|].
      cbn [normalizeCommands]. rewrite IHl.
      - apply lookup_insert_ne. apply (Hl k' v'). now left.
      - intros k'' v'' Hin. apply (Hl k'' v''). now right. }
    rewrite (Hkeep l2 _ Hl2). apply lookup_insert_eq.
  - cbn [app normalizeCommands]. apply IH, Hl2.
Qed.

(** A map holds one entry per key. *)
Lemma one_entry_per_key (m : gmap string CommandConfig) tok v :
  m !! tok = Some v ->
  List.filter (fun kv : string * CommandConfig => String.eqb (fst kv) tok) (map_to_list m)
  = [(tok, v)].
Proof.
  intros Hm.
  pose proof (NoDup_fst_map_to_list m) as Hnd.
  assert (Hin : (tok, v) ∈ map_to_list m) by (now apply elem_of_map_to_list).
  induction (map_to_list m) as [|[k x] l IH]; [inversion Hin|].
  cbn [List.filter fst]. cbn [fmap list_fmap fst] in Hnd.
  apply NoDup_cons in Hnd as [Hk Hnd].
  destruct (String.eqb k tok) eqn:Hkt.
  - apply String.eqb_eq in Hkt. subst k.
    assert (x = v).
    { apply elem_of_cons in Hin as [Heq|Hin]; [congruence|].
      exfalso. apply Hk. apply list_elem_of_fmap. exists (tok, v). auto. }
    subst x. f_equal.
    clear IH Hin Hnd. induction l as [|[k' x'] l IHl]; [reflexivity|].
    cbn [List.filter fst]. destruct (String.eqb k' tok) eqn:Hk'.
    + apply String.eqb_eq in Hk'. subst k'. exfalso. apply Hk.
      cbn [fmap list_fmap fst]. apply elem_of_cons. now left.
    + apply IHl. intros Hin. apply Hk. cbn [fmap list_fmap fst].
      apply elem_of_cons. now right.
  - apply String.eqb_neq in Hkt.
    apply elem_of_cons in Hin as [Heq|Hin]; [congruence|].
    apply IH; assumption.
Qed.

Definition firstCfg : CommandConfig := Scenario.static "first" 2.
Definition secondCfg : CommandConfig := Scenario.static "second" 2.

(** commands.json defines ["!A"] and then ["!a"]. *)
Definition collidingMembers : list (string * CommandConfig) :=
  [("!A", firstCfg); ("!a", secondCfg)].

(** A run in which [range] yields ["!a"] before ["!A"]. *)
Definition collidingEnv : Env :=
  Scenario.env (Scenario.peer "none" BadURL) collidingMembers
    (fun _ => [("!a", secondCfg); ("!A", firstCfg)])
    (fun _ => true) Scenario.noCodec Scenario.noCache.

(** C5, as stated, fails: of two raw keys with one token, the key the
    configuration defines later need not be the one the registry keeps.
    The loop of [loadCommands] ranges over a Go map, whose order is not the
    order of the file. *)
Lemma later_defined_key_can_lose :
  unmarshalCommands collidingEnv "commands" = Ok collidingMembers
  /\ "!A" <> "!a"
  /\ normalize "!A" = "!a" /\ normalize "!a" = "!a"
  /\ rangeCommands collidingEnv (storeMembers ∅ collidingMembers)
       ≡ₚ map_to_list (storeMembers ∅ collidingMembers)
  /\ firstCfg <> secondCfg
  /\ exists reg,
       loadCommands collidingEnv (Scenario.world None None)
       = Ret reg (Scenario.world None None)
       /\ reg !! "!a" = Some firstCfg.
Proof.
  split; [reflexivity|]. split; [discriminate|].
  split; [vm_compute; reflexivity|]. split; [vm_compute; reflexivity|].
  split.
  - assert (Hl : map_to_list (storeMembers ∅ collidingMembers)
                 = [("!A", firstCfg); ("!a", secondCfg)]
                 \/ map_to_list (storeMembers ∅ collidingMembers)
                 = [("!a", secondCfg); ("!A", firstCfg)]).
    { vm_compute. auto. }
    destruct Hl as [-> | ->]; cbn [rangeCommands collidingEnv Scenario.env].
    + apply Permutation_swap.
    + reflexivity.
  - split; [discriminate|].
    eexists. split; [reflexivity|]. vm_compute. reflexivity.
Qed.

(** C5, amended: the registry holds exactly one entry for the token, and it
    is the entry of the colliding raw key that the loader's iteration over
    the decoded map visits last. *)
Theorem registry_keeps_last_visited (E : Env) (w : World) (file : string)
  (members l1 l2 : list (string * CommandConfig)) (k : string) (v : CommandConfig) :
  commandsFile E = Some file ->
  unmarshalCommands E file = Ok members ->
  rangeCommands E (storeMembers ∅ members) = (l1 ++ (k, v) :: l2)%list ->
  (forall k' v', In (k', v') l2 -> normalize k' <> normalize k) ->
  exists reg,
    loadCommands E w = Ret reg w
    /\ reg !! normalize k = Some v
    /\ List.filter (fun kv : string * CommandConfig => String.eqb (fst kv) (normalize k))
         (map_to_list reg) = [(normalize k, v)].
Proof.
  intros Hfile Hdec Hrange Hlast.
  unfold loadCommands. rewrite Hfile, Hdec, Hrange.
  eexists. split; [reflexivity|].
  pose proof (normalizeCommands_last ∅ l1 k v l2 Hlast) as Hlook.
  split; [exact Hlook | apply one_entry_per_key, Hlook].
Qed.

Lemma registry_keeps_last_visited_witness :
  exists reg,
    loadCommands collidingEnv (Scenario.world None None)
    = Ret reg (Scenario.world None None)
    /\ reg !! normalize "!A" = Some firstCfg
    /\ List.filter (fun kv : string * CommandConfig => String.eqb (fst kv) (normalize "!A"))
         (map_to_list reg) = [(normalize "!A", firstCfg)].
Proof.
  apply (registry_keeps_last_visited collidingEnv (Scenario.world None None) "commands"
           collidingMembers [("!a", secondCfg)] [] "!A" firstCfg).
  - reflexivity.
  - reflexivity.
  - reflexivity.
  - intros k' v' [].
Defined.

(** ** What a call leaves alone *)

(** [w'] differs from [w] at most in the log of requests and in the number
    of clock readings. *)
Definition quiet (w w' : World) : Prop :=
  fileWrites w' = fileWrites w /\ sent w' = sent w
  /\ playersFile w' = playersFile w /\ championsFile w' = championsFile w
  /\ TwitchAppToken w' = TwitchAppToken w /\ championsMap w' = championsMap w
  /\ streamCache w' = streamCache w /\ playerCacheLock w' = playerCacheLock w
  /\ championsMu w' = championsMu w /\ streamCacheMu w' = streamCacheMu w.

Lemma quiet_refl w : quiet w w.
Proof. repeat split. Qed.

Lemma quiet_trans w1 w2 w3 : quiet w1 w2 -> quiet w2 w3 -> quiet w1 w3.
Proof.
  unfold quiet. intros H1 H2. decompose [and] H1. decompose [and] H2.
  repeat split; congruence.
Qed.

Lemma quiet_requests f w : quiet w (set_requests f w).
Proof. repeat split. Qed.

Lemma quiet_clock f w : quiet w (set_clockReads f w).
Proof. repeat split. Qed.

Lemma makeRequest_quiet E h p w r w' :
  makeRequest E h p w = Ret r w' -> quiet w w'.
Proof.
  unfold makeRequest.
  destruct (String.eqb (riotToken E) ""); [intros [= _ <-]; apply quiet_refl|].
  destruct (if String.eqb h "platform" then _ else _) as [host|];
    [|intros [= _ <-]; apply quiet_refl].
  unfold bind, httpGet.
  destruct (httpDo E _ _) as [|e|status b]; [discriminate| |].
  - intros [= _ <-]. apply quiet_requests.
  - destruct (negb (status =? 200)); intros [= _ <-]; apply quiet_requests.
Qed.

(** A successful request appends exactly its URL to the log; a request
    that is not sent leaves the log alone. *)
Lemma makeRequest_log E h p w r w' :
  makeRequest E h p w = Ret r w' ->
  requests w' = requests w \/ exists url, requests w' = url :: requests w.
Proof.
  unfold makeRequest.
  destruct (String.eqb (riotToken E) ""); [intros [= _ <-]; now left|].
  destruct (if String.eqb h "platform" then _ else _) as [host|];
    [|intros [= _ <-]; now left].
  unfold bind, httpGet.
  destruct (httpDo E _ _) as [|e|status b]; [discriminate| |].
  - intros [= _ <-]. right. eexists. reflexivity.
  - destruct (negb (status =? 200)); intros [= _ <-]; right; eexists; reflexivity.
Qed.

(** ** The player cache *)

(** A second resolution that finds the pair in players.json returns at
    once and touches nothing. *)
Lemma GetOrCachePlayer_hit E gameName tagLine w data p :
  playerCacheLock w = false ->
  playersFile w = Some data ->
  unmarshalPlayerCache E data !! (gameName ++ "#" ++ tagLine)%string = Some p ->
  GetOrCachePlayer E gameName tagLine w = Ret (Ok (PUUID p)) w.
Proof.
  intros Hlock Hfile Hhit.
  unfold GetOrCachePlayer, locked, bind, lockWith, getWorld, unlockWith, ret.
  rewrite Hlock. cbn [playersFile set_playerCacheLock]. rewrite Hfile, Hhit.
  f_equal. destruct w; cbn in *. now subst.
Qed.

(** C6, amended: once a resolution has succeeded and its write of
    players.json went through (and the file reads back as the cache that
    was written), a second resolution of the same pair returns the same
    identifier without any request, write or other change of state. *)
Theorem second_resolution_needs_no_request (E : Env) (gameName tagLine puuid : string)
  (w w1 w2 : World) :
  GetOrCachePlayer E gameName tagLine w = Ret (Ok puuid) w1 ->
  writeFileOk E (fileWrites w) = true ->
  (forall c, playersFile w1 = Some (marshalPlayerCache E c) ->
             unmarshalPlayerCache E (marshalPlayerCache E c) = c) ->
  playersFile w2 = playersFile w1 ->
  playerCacheLock w2 = false ->
  GetOrCachePlayer E gameName tagLine w2 = Ret (Ok puuid) w2.
Proof.
  intros Hfirst Hwrite Hcodec Hfile Hlock.
  unfold GetOrCachePlayer, locked in Hfirst.
  unfold bind at 1 in Hfirst. unfold lockWith in Hfirst.
  destruct (playerCacheLock w) eqn:Hl; [discriminate|].
  unfold bind at 1 in Hfirst. unfold bind at 1 in Hfirst.
  unfold getWorld at 1 in Hfirst.
  cbn [playersFile set_playerCacheLock] in Hfirst.
  set (w0 := set_playerCacheLock true w) in *.
  set (cache := match playersFile w with
                | Some data => unmarshalPlayerCache E data
                | None => ∅
                end) in *.
  set (key := (gameName ++ "#" ++ tagLine)%string) in *.
  destruct (cache !! key) as [p|] eqn:Hkey.
  - (* the first call was itself a hit *)
    unfold ret, bind, unlockWith in Hfirst. injection Hfirst as Hp Hw1. subst puuid w1.
    subst w0. cbn [playersFile set_playerCacheLock] in Hfile.
    subst cache. destruct (playersFile w) as [data|] eqn:Hpf; [|now rewrite lookup_empty in Hkey].
    now apply (GetOrCachePlayer_hit E gameName tagLine w2 data p).
  - (* the first call went upstream *)
    unfold bind at 1 in Hfirst.
    destruct (makeRequest E "regional" _ w0) as [r wa| | |] eqn:Hreq1; try discriminate.
    destruct r as [data|e]; [|unfold ret, bind, unlockWith in Hfirst; discriminate].
    destruct (unmarshalAccount E data) as [acc|e];
      [|unfold ret, bind, unlockWith in Hfirst; discriminate].
    unfold bind at 1 in Hfirst.
    destruct (makeRequest E "platform" _ wa) as [r2 wb| | |] eqn:Hreq2; try discriminate.
    destruct r2 as [sdata|e]; [|unfold ret, bind, unlockWith in Hfirst; discriminate].
    destruct (unmarshalSummoner E sdata) as [s|e];
      [|unfold ret, bind, unlockWith in Hfirst; discriminate].
    pose proof (quiet_trans _ _ _ (makeRequest_quiet _ _ _ _ _ _ Hreq1)
                  (makeRequest_quiet _ _ _ _ _ _ Hreq2)) as Hq.
    destruct Hq as (Hfw & _).
    unfold bind, now, writePlayersFile, ret, unlockWith in Hfirst.
    cbn [fileWrites set_clockReads] in Hfirst.
    rewrite Hfw in Hfirst. cbn [fileWrites w0 set_playerCacheLock] in Hfirst.
    rewrite Hwrite in Hfirst.
    injection Hfirst as Hp Hw1. subst puuid w1.
    cbn [playersFile set_playerCacheLock set_playersFile] in Hfile, Hcodec.
    specialize (Hcodec _ eq_refl).
    refine (GetOrCachePlayer_hit E gameName tagLine w2 _
              {| pGameName := aGameName acc; pTagLine := aTagLine acc;
                 PUUID := aPUUID acc; SummonerID := sID s;
                 pCachedAt := unixSec (timeNow E (clockReads wb)) |} Hlock Hfile _).
    rewrite Hcodec. apply lookup_insert_eq.
Qed.

#[global] Instance PlayerCacheEntry_eq_dec : EqDecision PlayerCacheEntry.
Proof. solve_decision. Defined.

(** The world in which a run ended. *)
Definition worldOf {A} (o : Outcome A) : World :=
  match o with
  | Ret _ w | Panic w | Blocked w | Exit w => w
  end.

Definition fakerEntry : PlayerCacheEntry :=
  {| pGameName := "Faker"; pTagLine := "KR1"; PUUID := "p-1";
     SummonerID := "s-1"; pCachedAt := 1700000000 |}.

Definition fakerCache : gmap string PlayerCacheEntry := {[ "Faker#KR1" := fakerEntry ]}.

(** A codec for players.json that knows one cache. *)
Definition stubMarshal (c : gmap string PlayerCacheEntry) : string :=
  if decide (c = fakerCache) then "{Faker#KR1}" else "{}".
Definition stubUnmarshal (data : string) : gmap string PlayerCacheEntry :=
  if String.eqb data "{Faker#KR1}" then fakerCache else ∅.

Definition playersEnv (writes : nat -> bool) : Env :=
  Scenario.env (Scenario.peer "none" BadURL) Scenario.registry map_to_list
    writes stubMarshal stubUnmarshal.

(** C6, as stated, fails: when the write of players.json fails, the second
    resolution of the same pair goes upstream again.  The cache of
    [GetOrCachePlayer] is a local variable filled from the file on every
    call; nothing is kept in memory between calls. *)
Lemma failed_write_repeats_lookups :
  let E := playersEnv (fun _ => false) in
  let w0 := Scenario.world None None in
  let w1 := worldOf (GetOrCachePlayer E "Faker" "KR1" w0) in
  let w2 := worldOf (GetOrCachePlayer E "Faker" "KR1" w1) in
  GetOrCachePlayer E "Faker" "KR1" w0 = Ret (Ok "p-1") w1
  /\ List.length (requests w1) = 2%nat
  /\ GetOrCachePlayer E "Faker" "KR1" w1 = Ret (Ok "p-1") w2
  /\ List.length (requests w2) = 4%nat.
Proof.
  cbv zeta. by_evaluation.
Qed.

Lemma second_resolution_needs_no_request_witness :
  let E := playersEnv (fun _ => true) in
  let w0 := Scenario.world None None in
  let w1 := worldOf (GetOrCachePlayer E "Faker" "KR1" w0) in
  GetOrCachePlayer E "Faker" "KR1" w0 = Ret (Ok "p-1") w1
  /\ List.length (requests w1) = 2%nat
  /\ GetOrCachePlayer E "Faker" "KR1" w1 = Ret (Ok "p-1") w1.
Proof.
  cbv zeta.
  assert (H1 : GetOrCachePlayer (playersEnv (fun _ => true)) "Faker" "KR1"
                 (Scenario.world None None)
               = Ret (Ok "p-1")
                   (worldOf (GetOrCachePlayer (playersEnv (fun _ => true)) "Faker" "KR1"
                               (Scenario.world None None))))
    by (vm_compute; reflexivity).
  split; [exact H1|]. split; [vm_compute; reflexivity|].
  apply (second_resolution_needs_no_request (playersEnv (fun _ => true))
           "Faker" "KR1" "p-1" (Scenario.world None None) _ _ H1).
  - reflexivity.
  - intros c Hc. cbn [marshalPlayerCache unmarshalPlayerCache playersEnv Scenario.env] in *.
    unfold stubMarshal in *. destruct (decide (c = fakerCache)) as [->|Hne].
    + vm_compute. reflexivity.
    + vm_compute in Hc. discriminate Hc.
  - reflexivity.
  - vm_compute. reflexivity.
Defined.

(** How a run ended, and the frames it wrote, oldest first. *)
Inductive Ending := Returned | Panicked | Deadlocked | Exited.

Definition ending {A} (o : Outcome A) : Ending :=
  match o with
  | Ret _ _ => Returned
  | Panic _ => Panicked
  | Blocked _ => Deadlocked
  | Exit _ => Exited
  end.

Definition framesOf {A} (o : Outcome A) : list string := rev (sent (worldOf o)).

(** The three frames [main] writes after connecting. *)
Definition greeting : list string :=
  [ "PASS oauth:x" ++ CRLF; "NICK bot" ++ CRLF; "JOIN #chan" ++ CRLF ]%string.

(** Every request is answered with status 200, except the league lookup,
    which fails with status 500. *)
Definition rankDownEnv : Env :=
  Scenario.env (Scenario.peer "/lol/league/" (Response 500 "oops")) Scenario.registry
    map_to_list (fun _ => true) stubMarshal stubUnmarshal.

(** Every request is answered with status 200 and a body without content. *)
Definition calmEnv : Env :=
  Scenario.env (Scenario.peer "none" BadURL) Scenario.registry
    map_to_list (fun _ => true) stubMarshal stubUnmarshal.

(** The player is in a game with two banned champions. *)
Definition inGameEnv : Env :=
  Scenario.env (Scenario.peer "/lol/spectator/" (Response 200 "bans")) Scenario.registry
    map_to_list (fun _ => true) stubMarshal stubUnmarshal.

(** ** The dispatch loop: crashes *)

Lemma dispatch_rank_error_panics E channel puuid cfg user w e w' :
  Type_ cfg = "api" -> Endpoint cfg = "riot_rank_info" ->
  GetCurrentRank E puuid w = Ret (Err e) w' ->
  dispatch E channel puuid cfg user w = Panic w'.
Proof.
  intros Ht He Hr. unfold dispatch. rewrite Ht, He. cbn [String.eqb Ascii.eqb Bool.eqb].
  unfold bind. rewrite Hr. reflexivity.
Qed.

(** C1, at the failing input: the rank command with the league lookup
    answering 500. [GetCurrentRank] returns a nil slice and an error, the
    error is logged, and [rank[0]] is out of range: the process dies after
    the greeting, without an apology. *)
Theorem rank_error_crashes_the_process :
  ending (main rankDownEnv [Scenario.privmsg "bob" "!rank"] (Scenario.world None None))
  = Panicked
  /\ framesOf (main rankDownEnv [Scenario.privmsg "bob" "!rank"] (Scenario.world None None))
     = greeting.
Proof. split; vm_compute; reflexivity. Qed.

(** Without a colon [SplitN(s, ":", 2)] has one element only. *)
Lemma genSplit_no_colon rcur p :
  Contains p ":" = false ->
  genSplit ":" 1 0 rcur p = [(string_of_list_ascii (rev rcur) ++ p)%string].
Proof.
  revert rcur. induction p as [|c p IH]; intros rcur Hc.
  - cbn [genSplit]. f_equal.
    induction (string_of_list_ascii (rev rcur)) as [|a x IHx]; [reflexivity|].
    change (String a x = String a (x ++ "")%string). now f_equal.
  - cbn [Contains] in Hc. apply orb_false_iff in Hc as [Hpre Hrest].
    cbn [genSplit]. rewrite Hpre. rewrite (IH _ Hrest). f_equal.
    cbn [rev]. generalize (rev rcur). intros l.
    induction l as [|a l IHl]; [reflexivity|].
    cbn [app string_of_list_ascii].
    change (String a (string_of_list_ascii (l ++ [c]) ++ p)%string
            = String a (string_of_list_ascii l ++ String c p)%string).
    now f_equal.
Qed.

(** A line that carries the marker but no colon after it is one on which
    the loop indexes out of range. *)
Lemma classify_without_colon rawLine p0 p1 rest :
  HasPrefix (TrimSpace rawLine) "PING" = false ->
  Contains (TrimSpace rawLine) "PRIVMSG" = true ->
  Split (TrimSpace rawLine) "PRIVMSG" = p0 :: p1 :: rest ->
  Contains p1 ":" = false ->
  classify rawLine = FBroken.
Proof.
  intros Hping Hc Hsplit Hn. unfold classify. rewrite Hping, Hc, Hsplit.
  cbn [List.length Nat.ltb Nat.leb lookup list_lookup].
  unfold SplitN. cbn [Nat.sub]. rewrite (genSplit_no_colon [] p1 Hn).
  destruct (Split p0 "!" !! 0%nat); reflexivity.
Qed.

Lemma handleLine_broken E channel puuid commands lastUsed rawLine w :
  classify rawLine = FBroken ->
  handleLine E channel puuid commands lastUsed rawLine w = Panic w.
Proof. intros H. unfold handleLine. now rewrite H. Qed.

(** C2, at the failing input: a line with the marker and no colon after
    it.  [strings.SplitN(parts[1], ":", 2)] has one element and the index
    [1] is out of range: the process dies, and the command on the next line
    is never answered. *)
Theorem frame_without_colon_crashes_the_process :
  classify (":tmi.twitch.tv PRIVMSG #chan" ++ CRLF) = FBroken
  /\ ending (main calmEnv
               [ (":tmi.twitch.tv PRIVMSG #chan" ++ CRLF)%string;
                 Scenario.privmsg "bob" "!hello" ]
               (Scenario.world None None)) = Panicked
  /\ framesOf (main calmEnv
               [ (":tmi.twitch.tv PRIVMSG #chan" ++ CRLF)%string;
                 Scenario.privmsg "bob" "!hello" ]
               (Scenario.world None None)) = greeting.
Proof. by_evaluation. Qed.

(** ** The dispatch loop: frames per dispatch *)

(** C7, at the failing input: the statistics command while the stream is
    not live.  The failure of [GetTwitchStreamStart] is answered with a
    frame and control goes on to [GetStreamStats], whose result is answered
    with a second frame. *)
Theorem stream_stats_writes_two_frames :
  GetTwitchStreamStart calmEnv "chan"
    (set_TwitchAppToken "app-token" (Scenario.world None None))
  = Ret (Err "stream not live")
      (set_requests (cons "https://api.twitch.tv/helix/streams?user_login=chan")
         (set_TwitchAppToken "app-token" (Scenario.world None None)))
  /\ ending (main calmEnv [Scenario.privmsg "bob" "!stats"] (Scenario.world None None))
     = Returned
  /\ framesOf (main calmEnv [Scenario.privmsg "bob" "!stats"] (Scenario.world None None))
     = (greeting ++
        [ "PRIVMSG #chan :@bob Error fetching stream info." ++ CRLF;
          "PRIVMSG #chan :@bob Wins: 0 | Loss: 0 | Winrate: 0.00% " ++ CRLF ]%string)%list.
Proof. by_evaluation. Qed.

(** ** The champion table *)

(** With the table not loaded, [GetChampionName] takes [championsMu] and
    calls [LoadChampionMap], which takes it again. *)
Lemma GetChampionName_self_deadlock E id w :
  championsMap w = None -> championsMu w = false ->
  GetChampionName E id w = Blocked (set_championsMu true w).
Proof.
  intros Hmap Hmu.
  unfold GetChampionName, locked, bind, lockWith, getWorld.
  rewrite Hmu. cbn [championsMap set_championsMu]. rewrite Hmap.
  unfold LoadChampionMap, locked, bind, lockWith. reflexivity.
Qed.

(** A failed load leaves the table nil. *)
Lemma LoadChampionMap_failure E w :
  championsMu w = false -> championsMap w = None ->
  (championsFile w = None
   \/ exists data e, championsFile w = Some data /\ unmarshalChampions E data = Err e) ->
  exists e, LoadChampionMap E w = Ret (Err e) w.
Proof.
  intros Hmu Hmap Hfile.
  unfold LoadChampionMap, locked, bind, lockWith, getWorld, unlockWith, ret.
  rewrite Hmu. cbn [championsMap championsFile set_championsMu]. rewrite Hmap.
  assert (Hw : set_championsMu false (set_championsMu true w) = w)
    by (destruct w; cbn in *; now subst).
  destruct Hfile as [-> | (data & e & -> & ->)];
    eexists; cbv beta iota; rewrite Hw; reflexivity.
Qed.

(** With the table loaded the lookup is as the claim says. *)
Lemma GetChampionName_loaded E id w m :
  championsMap w = Some m -> championsMu w = false ->
  GetChampionName E id w
  = Ret (match m !! id with Some name => name | None => ("Unknown(" ++ Itoa id ++ ")")%string end) w.
Proof.
  intros Hmap Hmu.
  unfold GetChampionName, locked, bind, lockWith, getWorld, unlockWith, ret.
  rewrite Hmu. cbn [championsMap set_championsMu]. rewrite Hmap.
  assert (Hw : set_championsMu false (set_championsMu true w) = w)
    by (destruct w; cbn in *; now subst).
  cbn [championsMap set_championsMu]. rewrite Hmap.
  destruct (m !! id); cbv beta iota; rewrite Hw; reflexivity.
Qed.

(** C8, at the failing input: champions.json is absent, so the load at
    startup fails and leaves the table nil; the bans command then asks for
    the name of champion 1.  The call never returns: no placeholder, no
    frame, and the loop reads no further line. *)
Theorem champion_name_deadlocks_without_table :
  (exists e, LoadChampionMap inGameEnv (Scenario.world None None)
             = Ret (Err e) (Scenario.world None None))
  /\ ending (GetChampionName inGameEnv 1 (Scenario.world None None)) = Deadlocked
  /\ ending (main inGameEnv
               [Scenario.privmsg "al" "!bans"; Scenario.privmsg "al" "!hello"]
               (Scenario.world None None)) = Deadlocked
  /\ framesOf (main inGameEnv
               [Scenario.privmsg "al" "!bans"; Scenario.privmsg "al" "!hello"]
               (Scenario.world None None)) = greeting.
Proof.
  split; [eexists; vm_compute; reflexivity|].
  by_evaluation.
Qed.

(** The scenario of the specification, with the table in place. *)
Example champion_names_with_table :
  framesOf (main inGameEnv [Scenario.privmsg "al" "!bans"]
              (Scenario.world None (Some "champions")))
  = (greeting ++ ["PRIVMSG #chan :@al Banned Champions: Aatrox, Unknown(999)" ++ CRLF]%string)%list.
Proof. vm_compute. reflexivity. Qed.

(** ** Cooldown *)

Lemma DurationSeconds_fits n :
  0 <= n * Second <= maxInt64 -> DurationSeconds n = n * Second.
Proof.
  unfold DurationSeconds, wrap64, maxInt64. intros H.
  rewrite Z.mod_small; lia.
Qed.

Lemma Since_fits t1 t2 :
  0 <= monoNs t2 - monoNs t1 <= maxInt64 -> Since t2 t1 = monoNs t2 - monoNs t1.
Proof.
  unfold Since, sat64, minInt64, maxInt64. lia.
Qed.

(** A command that is still cooling is skipped: nothing but the clock is
    touched. *)
Lemma handleLine_cooling E channel puuid commands lastUsed rawLine user msg cfg t w :
  classify rawLine = FMessage user msg ->
  commands !! normalize msg = Some cfg ->
  lastUsed !! normalize msg = Some t ->
  0 <= Cooldown cfg * Second <= maxInt64 ->
  0 <= monoNs (timeNow E (clockReads w)) - monoNs t < Cooldown cfg * Second ->
  handleLine E channel puuid commands lastUsed rawLine w
  = Ret lastUsed (set_clockReads S w).
Proof.
  intros Hc Hcmd Hlast Hfit Hel.
  unfold handleLine. rewrite Hc, Hcmd, Hlast.
  unfold bind, now, ret.
  rewrite DurationSeconds_fits by exact Hfit.
  rewrite Since_fits by lia.
  replace (_ <? _) with true by (symmetry; apply Z.ltb_lt; lia).
  reflexivity.
Qed.

(** A registry with one command whose cooldown, in nanoseconds, does not
    fit 64 bits. *)
Definition longCooldownEnv : Env :=
  Scenario.env (Scenario.peer "none" BadURL)
    [("!hello", Scenario.static "hi" 9223372037)]
    map_to_list (fun _ => true) stubMarshal stubUnmarshal.

(** C3, as stated, fails for a registered command whose cooldown is
    9223372037 seconds: the duration wraps to a negative number of
    nanoseconds, no elapsed time is below it, and an attempt one second
    after a dispatch is dispatched again. *)
Lemma cooldown_overflow_lets_second_attempt_through :
  let line := Scenario.privmsg "bob" "!hello" in
  let run1 := handleLine longCooldownEnv "chan" "p-1"
                {[ "!hello" := Scenario.static "hi" 9223372037 ]} ∅ line
                (Scenario.world None None) in
  let lastUsed1 := {[ "!hello" := Scenario.tick 0 ]} in
  let run2 := handleLine longCooldownEnv "chan" "p-1"
                {[ "!hello" := Scenario.static "hi" 9223372037 ]} lastUsed1 line
                (worldOf run1) in
  run1 = Ret lastUsed1 (worldOf run1)
  /\ framesOf run1 = ["PRIVMSG #chan :@bob hi" ++ CRLF]%string
  /\ timeNow longCooldownEnv (clockReads (worldOf run1)) = Scenario.tick 1
  /\ monoNs (Scenario.tick 1) - monoNs (Scenario.tick 0) = 1 * Second
  /\ 1 < 9223372037
  /\ DurationSeconds 9223372037 < 0
  /\ ending run2 = Returned
  /\ framesOf run2 = ["PRIVMSG #chan :@bob hi" ++ CRLF; "PRIVMSG #chan :@bob hi" ++ CRLF]%string
  /\ framesOf (main longCooldownEnv [line; line] (Scenario.world None None))
     = (greeting ++ ["PRIVMSG #chan :@bob hi" ++ CRLF; "PRIVMSG #chan :@bob hi" ++ CRLF]%string)%list.
Proof.
  cbv zeta. by_evaluation.
Qed.

(** C3, amended: for a registered command whose cooldown in nanoseconds
    fits 64 bits, an attempt that produced a response has its time stamp in
    the cooldown table (taken after the handler, whatever the handler's
    result), and every attempt of the same token, by whatever sender, whose
    check happens less than the cooldown after that time stamp is skipped:
    it writes nothing and leaves the table as it is. *)
Theorem cooldown_skips_attempts_after_a_dispatch (E : Env) (channel puuid : string)
  (commands : gmap string CommandConfig) (lastUsed lastUsed' : gmap string Time)
  (line1 user1 msg1 line2 user2 msg2 tok : string) (cfg : CommandConfig)
  (w1 w1' : World) :
  classify line1 = FMessage user1 msg1 -> normalize msg1 = tok ->
  classify line2 = FMessage user2 msg2 -> normalize msg2 = tok ->
  commands !! tok = Some cfg ->
  0 <= Cooldown cfg * Second <= maxInt64 ->
  handleLine E channel puuid commands lastUsed line1 w1 = Ret lastUsed' w1' ->
  sent w1' <> sent w1 ->
  exists k,
    clockReads w1' = S k
    /\ lastUsed' = <[tok := timeNow E k]> lastUsed
    /\ forall w2,
         0 <= monoNs (timeNow E (clockReads w2)) - monoNs (timeNow E k)
           < Cooldown cfg * Second ->
         handleLine E channel puuid commands lastUsed' line2 w2
         = Ret lastUsed' (set_clockReads S w2).
Proof.
  intros Hc1 Hn1 Hc2 Hn2 Hcmd Hfit Hrun Hsent.
  assert (Hskip : forall k, lastUsed' = <[tok := timeNow E k]> lastUsed ->
            forall w2,
              0 <= monoNs (timeNow E (clockReads w2)) - monoNs (timeNow E k)
                < Cooldown cfg * Second ->
              handleLine E channel puuid commands lastUsed' line2 w2
              = Ret lastUsed' (set_clockReads S w2)).
  { intros k -> w2 Hel.
    apply (handleLine_cooling E channel puuid commands _ line2 user2 msg2 cfg (timeNow E k));
      rewrite ?Hn2; auto. apply lookup_insert_eq. }
  unfold handleLine in Hrun. rewrite Hc1, Hn1, Hcmd in Hrun.
  unfold bind at 1 in Hrun.
  destruct (lastUsed !! tok) as [t0|].
  - unfold bind at 1, now at 1, ret at 1 in Hrun.
    destruct (Since _ t0 <? _).
    + injection Hrun as _ Hw. subst w1'. now contradiction Hsent.
    + unfold bind at 1 in Hrun.
      destruct (dispatch E channel puuid cfg user1 _) as [[] wd| | |]; try discriminate.
      unfold bind, now, ret in Hrun. injection Hrun as Hl Hw. subst lastUsed' w1'.
      exists (clockReads wd). split; [reflexivity|]. split; [reflexivity|]. now apply Hskip.
  - unfold ret at 1 in Hrun. unfold bind at 1 in Hrun.
    destruct (dispatch E channel puuid cfg user1 w1) as [[] wd| | |]; try discriminate.
    unfold bind, now, ret in Hrun. injection Hrun as Hl Hw. subst lastUsed' w1'.
    exists (clockReads wd). split; [reflexivity|]. split; [reflexivity|]. now apply Hskip.
Qed.

Lemma cooldown_skips_attempts_after_a_dispatch_witness :
  let commands : gmap string CommandConfig := {[ "!hello" := Scenario.static "hi" 2 ]} in
  let lastUsed' : gmap string Time := <[ "!hello" := Scenario.tick 0 ]> ∅ in
  exists k,
    clockReads (worldOf (handleLine calmEnv "chan" "p-1" commands ∅
                           (Scenario.privmsg "bob" "!hello") (Scenario.world None None)))
    = S k
    /\ lastUsed' = <[ "!hello" := timeNow calmEnv k ]> ∅
    /\ forall w2,
         0 <= monoNs (timeNow calmEnv (clockReads w2)) - monoNs (timeNow calmEnv k)
           < Cooldown (Scenario.static "hi" 2) * Second ->
         handleLine calmEnv "chan" "p-1" commands lastUsed'
           (Scenario.privmsg "alice" "  !HeLLo ") w2
         = Ret lastUsed' (set_clockReads S w2).
Proof.
  cbv zeta.
  apply (cooldown_skips_attempts_after_a_dispatch calmEnv "chan" "p-1"
           {[ "!hello" := Scenario.static "hi" 2 ]} ∅ (<[ "!hello" := Scenario.tick 0 ]> ∅)
           (Scenario.privmsg "bob" "!hello") "bob" "!hello"
           (Scenario.privmsg "alice" "  !HeLLo ") "alice" "  !HeLLo" "!hello"
           (Scenario.static "hi" 2) (Scenario.world None None)).
  - vm_compute; reflexivity.
  - vm_compute; reflexivity.
  - vm_compute; reflexivity.
  - vm_compute; reflexivity.
  - vm_compute; reflexivity.
  - unfold Second, maxInt64. cbn. lia.
  - vm_compute; reflexivity.
  - vm_compute. discriminate.
Defined.

(** ** Bans *)

Definition bansURL (E : Env) (puuid : string) : string :=
  ("https://" ++ (platformStr E ++ ".api.riotgames.com")
     ++ ("/lol/spectator/v5/active-games/by-summoner/" ++ puuid))%string.

Lemma append_assoc_s (a b c : string) : ((a ++ b) ++ c = a ++ (b ++ c))%string.
Proof.
  induction a as [|x a IH]; [reflexivity|].
  change (String x ((a ++ b) ++ c)%string = String x (a ++ (b ++ c))%string).
  now f_equal.
Qed.

Lemma append_inj_head (a x y : string) : (a ++ x = a ++ y)%string -> x = y.
Proof.
  induction a as [|c a IH]; [trivial|].
  change (String c (a ++ x)%string = String c (a ++ y)%string -> x = y).
  intros [= H]. auto.
Qed.

Lemma error_404_is_recognized body :
  Contains ("request failed " ++ Itoa 404 ++ ": " ++ body)%string "404" = true.
Proof. vm_compute. reflexivity. Qed.

Lemma token_set E : RIOT_TOKEN E <> "" -> String.eqb (riotToken E) "" = false.
Proof. intros H. apply String.eqb_neq. exact H. Qed.

(** What [makeRequest] returns for a request to the platform host that is
    sent. *)
Lemma makeRequest_platform E path w :
  RIOT_TOKEN E <> "" ->
  makeRequest E "platform" path w
  = let url := ("https://" ++ (platformStr E ++ ".api.riotgames.com") ++ path)%string in
    match httpDo E (List.length (requests w)) url with
    | BadURL => Panic (set_requests (cons url) w)
    | NetError e => Ret (Err e) (set_requests (cons url) w)
    | Response status b =>
      if status =? 200 then Ret (Ok b) (set_requests (cons url) w)
      else Ret (Err ("request failed " ++ Itoa status ++ ": " ++ b)%string)
             (set_requests (cons url) w)
    end.
Proof.
  intros Htok. unfold makeRequest. rewrite (token_set E Htok).
  cbn [String.eqb Ascii.eqb Bool.eqb]. unfold bind, httpGet. cbv zeta.
  destruct (httpDo E _ _) as [|e|status b]; try reflexivity.
  destruct (status =? 200); reflexivity.
Qed.

Lemma makeRequest_platform_failure E path w e w' :
  makeRequest E "platform" path w = Ret (Err e) w' ->
  Contains e "404" = false ->
  let answer := httpDo E (List.length (requests w))
                  ("https://" ++ (platformStr E ++ ".api.riotgames.com") ++ path)%string in
  RIOT_TOKEN E = ""
  \/ (exists msg, answer = NetError msg)
  \/ (exists status body, answer = Response status body /\ status <> 200 /\ status <> 404).
Proof.
  intros Hreq Hno. cbv zeta.
  destruct (String.eqb (RIOT_TOKEN E) "") eqn:Htok.
  - left. now apply String.eqb_eq.
  - right. apply String.eqb_neq in Htok.
    rewrite (makeRequest_platform E path w Htok) in Hreq. cbv zeta in Hreq.
    destruct (httpDo E _ _) as [|msg|status b]; [discriminate| |].
    + left. now exists msg.
    + right. exists status, b. split; [reflexivity|].
      destruct (status =? 200) eqn:H200; [discriminate|].
      apply Z.eqb_neq in H200. split; [exact H200|].
      intros ->. injection Hreq as He _. subst e.
      rewrite error_404_is_recognized in Hno. discriminate.
Qed.

Lemma GetChampionName_sent E id w name w' :
  GetChampionName E id w = Ret name w' -> sent w' = sent w.
Proof.
  unfold GetChampionName, locked, bind, lockWith, getWorld, unlockWith, ret.
  destruct (championsMu w); [discriminate|].
  cbn [championsMap set_championsMu].
  destruct (championsMap w) as [m|] eqn:Hmap.
  - cbn [championsMap set_championsMu]. rewrite Hmap.
    destruct (m !! id); cbv beta iota; intros H; injection H as _ <-; reflexivity.
  - unfold LoadChampionMap, locked, bind, lockWith. cbn [championsMu set_championsMu].
    discriminate.
Qed.

Lemma mapM_GetChampionName_sent E (l : list bannedChampion) w names w' :
  mapM (fun b => GetChampionName E (ChampionID b)) l w = Ret names w' ->
  sent w' = sent w.
Proof.
  revert w names w'. induction l as [|b l IH]; intros w names w'.
  - cbn [mapM]. unfold ret. intros [= _ <-]. reflexivity.
  - cbn [mapM]. unfold bind at 1.
    destruct (GetChampionName E (ChampionID b) w) as [n wa| | |] eqn:Hn; try discriminate.
    unfold bind at 1.
    destruct (mapM _ l wa) as [ns wb| | |] eqn:Hm; try discriminate.
    unfold ret. intros [= _ <-]. rewrite (IH _ _ _ Hm). apply (GetChampionName_sent _ _ _ _ _ Hn).
Qed.

Lemma cons_head_eq {A} (a b : A) (l l' : list A) : a :: l = b :: l' -> a = b.
Proof. intros H. congruence. Qed.

(** The two answers of the bans command are different frames. *)
Lemma bans_frames_differ channel user joined :
  ("PRIVMSG #" ++ channel ++ " :" ++ ("@" ++ user ++ " Banned Champions: " ++ joined) ++ CRLF)%string
  <> ("PRIVMSG #" ++ channel ++ " :" ++ ("@" ++ user ++ " Not in an Active Match") ++ CRLF)%string.
Proof.
  intros H.
  apply append_inj_head, append_inj_head, append_inj_head in H.
  rewrite !append_assoc_s in H.
  apply append_inj_head, append_inj_head in H.
  vm_compute in H. discriminate H.
Qed.

(** C10: a 404 answer of the active-game lookup is not an error: the ban
    list is empty and the loop answers with the empty list.  And when the
    loop answers that the subject is not in a match, the lookup failed and
    the peer's answer was not a 404: no token was set, or the request could
    not be completed, or the status was neither 200 nor 404. *)
Theorem bans_404_is_an_empty_list (E : Env) (channel puuid user : string)
  (cfg : CommandConfig) (w : World) :
  Type_ cfg = "api" ->
  Endpoint cfg = "current_bans_info" ->
  let answer := httpDo E (List.length (requests w)) (bansURL E puuid) in
  (forall body,
     RIOT_TOKEN E <> "" ->
     answer = Response 404 body ->
     GetActiveMatchBans E puuid w = Ret (Ok []) (set_requests (cons (bansURL E puuid)) w)
     /\ dispatch E channel puuid cfg user w
        = Ret tt (set_sent (cons ("PRIVMSG #" ++ channel ++ " :"
                                    ++ ("@" ++ user ++ " Banned Champions: " ++ "") ++ CRLF)%string)
                    (set_requests (cons (bansURL E puuid)) w)))
  /\ (forall w',
        dispatch E channel puuid cfg user w = Ret tt w' ->
        sent w' = ("PRIVMSG #" ++ channel ++ " :"
                     ++ ("@" ++ user ++ " Not in an Active Match") ++ CRLF)%string :: sent w ->
        RIOT_TOKEN E = ""
        \/ (exists msg, answer = NetError msg)
        \/ (exists status body,
              answer = Response status body /\ status <> 200 /\ status <> 404)).
Proof.
  intros Ht He answer. split.
  - intros body Htok Hans.
    assert (Hbans : GetActiveMatchBans E puuid w
                    = Ret (Ok []) (set_requests (cons (bansURL E puuid)) w)).
    { unfold GetActiveMatchBans, bind.
      rewrite (makeRequest_platform E _ w Htok). cbv zeta.
      change (httpDo E (List.length (requests w)) _) with answer.
      rewrite Hans. change (404 =? 200) with false. cbv iota.
      rewrite error_404_is_recognized. reflexivity. }
    split; [exact Hbans|].
    unfold dispatch. rewrite Ht, He. cbn [String.eqb Ascii.eqb Bool.eqb].
    unfold bind. rewrite Hbans. reflexivity.
  - intros w' Hd Hsent.
    unfold dispatch in Hd. rewrite Ht, He in Hd. cbn [String.eqb Ascii.eqb Bool.eqb] in Hd.
    unfold bind at 1 in Hd.
    destruct (GetActiveMatchBans E puuid w) as [r wa| | |] eqn:Hb; try discriminate.
    unfold GetActiveMatchBans in Hb. unfold bind at 1 in Hb.
    destruct (makeRequest E "platform" _ w) as [rq wq| | |] eqn:Hreq; try discriminate.
    pose proof (makeRequest_quiet _ _ _ _ _ _ Hreq) as (_ & Hsq & _).
    destruct rq as [data|e].
    + (* the lookup succeeded: the frame lists the bans *)
      exfalso. unfold bind at 1 in Hb.
      destruct (mapM _ _ wq) as [names wm| | |] eqn:Hm; try discriminate.
      apply mapM_GetChampionName_sent in Hm.
      injection Hb as <- <-.
      unfold say, write in Hd. injection Hd as <-.
      cbn [sent set_sent] in Hsent. rewrite Hm, Hsq in Hsent.
      apply cons_head_eq in Hsent. now apply bans_frames_differ in Hsent.
    + destruct (Contains e "404") eqn:H404.
      * (* a 404: the frame lists no bans *)
        exfalso. injection Hb as <- <-.
        unfold say, write in Hd. injection Hd as <-.
        cbn [sent set_sent] in Hsent. rewrite Hsq in Hsent.
        apply cons_head_eq in Hsent.
        now apply (bans_frames_differ channel user (Join [] ", ")) in Hsent.
      * apply (makeRequest_platform_failure E _ w e wq Hreq H404).
Qed.

(** The player is not in a game: the active-game lookup answers 404. *)
Definition notInGameEnv : Env :=
  Scenario.env (Scenario.peer "/lol/spectator/" (Response 404 "no game")) Scenario.registry
    map_to_list (fun _ => true) stubMarshal stubUnmarshal.

Lemma bans_404_is_an_empty_list_witness :
  GetActiveMatchBans notInGameEnv "p-1" (Scenario.world None None)
  = Ret (Ok []) (set_requests (cons (bansURL notInGameEnv "p-1")) (Scenario.world None None))
  /\ dispatch notInGameEnv "chan" "p-1" (Scenario.api "current_bans_info" 2) "al"
       (Scenario.world None None)
     = Ret tt (set_sent (cons ("PRIVMSG #" ++ "chan" ++ " :"
                                 ++ ("@" ++ "al" ++ " Banned Champions: " ++ "") ++ CRLF)%string)
                 (set_requests (cons (bansURL notInGameEnv "p-1")) (Scenario.world None None))).
Proof.
  apply (proj1 (bans_404_is_an_empty_list notInGameEnv "chan" "p-1" "al"
                  (Scenario.api "current_bans_info" 2) (Scenario.world None None)
                  eq_refl eq_refl) "no game").
  - discriminate.
  - vm_compute. reflexivity.
Defined.

(** ** Session statistics *)









(** Every request is answered with status 200, whatever its URL. *)
Definition steadyEnv : Env :=
  Scenario.env (fun _ _ => Response 200 "ok") Scenario.registry
    map_to_list (fun _ => true) stubMarshal stubUnmarshal.


(** * Further properties of the code *)

(** ** Command tokens *)

(** X1: whatever the input, a command token holds ASCII bytes only. *)
Theorem normalize_is_ascii (s : string) : allASCII (normalize s) = true.
Proof. unfold normalize. apply Map_dropNonASCII_allASCII. Qed.

(** X3: on ASCII input, lower-casing or trimming the text beforehand does
    not change the token: matching ignores case and outer white space. *)
Theorem normalize_ignores_case_and_outer_space (s : string) :
  allASCII s = true ->
  normalize (ToLower s) = normalize s /\ normalize (TrimSpace s) = normalize s.
Proof.
  intros H. unfold allASCII in H.
  rewrite <- (string_of_list_ascii_of_string s).
  set (l := list_ascii_of_string s) in *.
  pose proof (normalize_ascii l H) as Hn.
  split.
  - unfold ToLower. rewrite (Map_ascii unicodeToLower l H unicodeToLower_ascii).
    rewrite (normalize_ascii _ (asciiBytes_lower l H)), Hn. f_equal.
    rewrite (trimA_map _ _ l spA_lowerA), List.map_map.
    apply List.map_ext. intros c. apply lowerA_idem.
  - rewrite (TrimSpace_ascii l H).
    rewrite (normalize_ascii _ (asciiBytes_trimA _ l H)), Hn.
    now rewrite trimA_idem.
Qed.

Lemma normalize_ignores_case_and_outer_space_witness :
  allASCII "  !HeLP " = true
  /\ normalize (ToLower "  !HeLP ") = normalize "  !HeLP "
  /\ normalize (TrimSpace "  !HeLP ") = normalize "  !HeLP ".
Proof.
  split; [reflexivity|].
  apply normalize_ignores_case_and_outer_space. reflexivity.
Defined.

(** ** Requests to the game service *)

Definition riotHost (E : Env) (hostType : string) : option string :=
  if String.eqb hostType "platform" then Some (platformStr E ++ ".api.riotgames.com")%string
  else if String.eqb hostType "regional" then Some (regionStr E ++ ".api.riotgames.com")%string
  else None.

Lemma makeRequest_ok_inv E hostType path w b w' :
  makeRequest E hostType path w = Ret (Ok b) w' ->
  RIOT_TOKEN E <> ""
  /\ exists host,
       riotHost E hostType = Some host
       /\ httpDo E (List.length (requests w)) ("https://" ++ host ++ path)%string
          = Response 200 b
       /\ w' = set_requests (cons ("https://" ++ host ++ path)%string) w.
Proof.
  unfold makeRequest, riotHost.
  destruct (String.eqb (riotToken E) "") eqn:Htok; [discriminate|].
  apply String.eqb_neq in Htok. intros H. split; [exact Htok|].
  destruct (if String.eqb hostType "platform" then _ else _) as [host|]; [|discriminate].
  exists host. split; [reflexivity|].
  unfold bind, httpGet in H.
  destruct (httpDo E _ _) as [|e|status body]; try discriminate.
  destruct (status =? 200) eqn:Hs; cbn [negb] in H; [|discriminate].
  apply Z.eqb_eq in Hs. subst status. unfold ret in H.
  injection H as -> <-. auto.
Qed.

(** X4: [makeRequest] reports success only for an answer with status 200,
    whose body it returns; the request went to the host of the given kind
    over https, and it is the one request the call made. *)
Theorem makeRequest_succeeds_only_on_200 (E : Env) (hostType path b : string) (w w' : World) :
  makeRequest E hostType path w = Ret (Ok b) w' ->
  RIOT_TOKEN E <> ""
  /\ exists host,
       riotHost E hostType = Some host
       /\ httpDo E (List.length (requests w)) ("https://" ++ host ++ path)%string
          = Response 200 b
       /\ requests w' = ("https://" ++ host ++ path)%string :: requests w.
Proof.
  intros H. destruct (makeRequest_ok_inv _ _ _ _ _ _ H) as (Htok & host & Hh & Ha & ->).
  split; [exact Htok|]. exists host. auto.
Qed.

Lemma makeRequest_succeeds_only_on_200_witness :
  RIOT_TOKEN steadyEnv <> ""
  /\ exists host,
       riotHost steadyEnv "regional" = Some host
       /\ httpDo steadyEnv (List.length (requests (Scenario.world None None)))
            ("https://" ++ host ++ "/x")%string = Response 200 "ok"
       /\ requests (set_requests (cons "https://americas.api.riotgames.com/x")
                      (Scenario.world None None))
          = ("https://" ++ host ++ "/x")%string :: requests (Scenario.world None None).
Proof.
  apply (makeRequest_succeeds_only_on_200 steadyEnv "regional" "/x" "ok"
           (Scenario.world None None)).
  vm_compute. reflexivity.
Defined.

(** X5: without a token, or for a host kind other than the two known
    ones, [makeRequest] fails without sending anything. *)
Theorem makeRequest_sends_nothing_unconfigured (E : Env) (hostType path : string) (w : World) :
  RIOT_TOKEN E = "" \/ riotHost E hostType = None ->
  exists e, makeRequest E hostType path w = Ret (Err e) w.
Proof.
  intros H. unfold makeRequest.
  destruct (String.eqb (riotToken E) "") eqn:Htok; [eexists; reflexivity|].
  destruct H as [H|H].
  - apply String.eqb_neq in Htok. now contradiction Htok.
  - unfold riotHost in H. rewrite H. eexists; reflexivity.
Qed.

Lemma makeRequest_sends_nothing_unconfigured_witness :
  exists e, makeRequest steadyEnv "europe" "/x" (Scenario.world None None)
            = Ret (Err e) (Scenario.world None None).
Proof.
  apply makeRequest_sends_nothing_unconfigured. right. reflexivity.
Defined.

(** ** The player cache, continued *)

Definition playerKey (gameName tagLine : string) : string :=
  (gameName ++ "#" ++ tagLine)%string.

Definition cacheOnDisk (E : Env) (w : World) : gmap string PlayerCacheEntry :=
  match playersFile w with
  | Some data => unmarshalPlayerCache E data
  | None => ∅
  end.

(** The shape of every return of [GetOrCachePlayer]. *)
Lemma GetOrCachePlayer_inv E gameName tagLine w r w' :
  GetOrCachePlayer E gameName tagLine w = Ret r w' ->
  playerCacheLock w = false
  /\ ((exists p, cacheOnDisk E w !! playerKey gameName tagLine = Some p
                 /\ r = Ok (PUUID p) /\ w' = w)
      \/ (cacheOnDisk E w !! playerKey gameName tagLine = None
          /\ exists e, r = Err e /\ playersFile w' = playersFile w
                       /\ fileWrites w' = fileWrites w /\ playerCacheLock w' = false
                       /\ sent w' = sent w)
      \/ (cacheOnDisk E w !! playerKey gameName tagLine = None
          /\ exists entry url1 url2,
               r = Ok (PUUID entry)
               /\ requests w' = url2 :: url1 :: requests w
               /\ fileWrites w' = S (fileWrites w)
               /\ playerCacheLock w' = false
               /\ sent w' = sent w
               /\ playersFile w'
                  = if writeFileOk E (fileWrites w)
                    then Some (marshalPlayerCache E
                                 (<[playerKey gameName tagLine := entry]> (cacheOnDisk E w)))
                    else playersFile w)).
Proof.
  intros Hrun. unfold GetOrCachePlayer, locked in Hrun.
  unfold bind at 1 in Hrun. unfold lockWith in Hrun.
  destruct (playerCacheLock w) eqn:Hl; [discriminate|]. split; [reflexivity|].
  unfold bind at 1 in Hrun. unfold bind at 1 in Hrun. unfold getWorld at 1 in Hrun.
  cbn [playersFile set_playerCacheLock] in Hrun.
  fold (cacheOnDisk E w) in Hrun. fold (playerKey gameName tagLine) in Hrun.
  assert (Hw : set_playerCacheLock false (set_playerCacheLock true w) = w)
    by (destruct w; cbn in *; now subst).
  destruct (cacheOnDisk E w !! playerKey gameName tagLine) as [p|] eqn:Hkey.
  - left. unfold ret, bind, unlockWith in Hrun. injection Hrun as <- <-.
    exists p. rewrite Hw. auto.
  - right.
    assert (Hfail : forall e wa,
              quiet (set_playerCacheLock true w) wa ->
              Ret (Err e) (set_playerCacheLock false wa) = Ret r w' ->
              exists e0, r = Err e0 /\ playersFile w' = playersFile w
                         /\ fileWrites w' = fileWrites w /\ playerCacheLock w' = false
                         /\ sent w' = sent w).
    { intros e wa Hq [= <- <-]. exists e.
      destruct Hq as (Hfw & Hs & Hpf & _). cbn in *. auto. }
    unfold bind at 1 in Hrun.
    destruct (makeRequest E "regional" _ _) as [r1 wa| | |] eqn:Hreq1; try discriminate.
    pose proof (makeRequest_quiet _ _ _ _ _ _ Hreq1) as Hq1.
    destruct r1 as [data|e];
      [|left; split; [reflexivity|]; unfold ret, bind, unlockWith in Hrun; eapply Hfail; eauto].
    destruct (unmarshalAccount E data) as [acc|e];
      [|left; split; [reflexivity|]; unfold ret, bind, unlockWith in Hrun; eapply Hfail; eauto].
    unfold bind at 1 in Hrun.
    destruct (makeRequest E "platform" _ wa) as [r2 wb| | |] eqn:Hreq2; try discriminate.
    pose proof (quiet_trans _ _ _ Hq1 (makeRequest_quiet _ _ _ _ _ _ Hreq2)) as Hq2.
    destruct r2 as [sdata|e];
      [|left; split; [reflexivity|]; unfold ret, bind, unlockWith in Hrun; eapply Hfail; eauto].
    destruct (unmarshalSummoner E sdata) as [s|e];
      [|left; split; [reflexivity|]; unfold ret, bind, unlockWith in Hrun; eapply Hfail; eauto].
    right. split; [reflexivity|].
    clear Hfail.
    destruct (makeRequest_ok_inv _ _ _ _ _ _ Hreq1) as (_ & h1 & _ & _ & Hwa).
    destruct (makeRequest_ok_inv _ _ _ _ _ _ Hreq2) as (_ & h2 & _ & _ & Hwb).
    clear Hreq1 Hreq2 Hq1 Hq2. subst wa. subst wb.
    unfold bind, now, writePlayersFile, ret, unlockWith in Hrun.
    cbn [fileWrites set_clockReads set_requests set_playerCacheLock] in Hrun.
    exists {| pGameName := aGameName acc; pTagLine := aTagLine acc;
              PUUID := aPUUID acc; SummonerID := sID s;
              pCachedAt := unixSec (timeNow E (clockReads w)) |}.
    eexists _, _.
    destruct (writeFileOk E (fileWrites w)); injection Hrun as <- <-;
      (split; [reflexivity|]); cbn; auto.
Qed.

(** X6: a resolution that fails caches nothing: players.json is as it
    was, no write was attempted, no frame was written, and the lock is
    free again. *)
Theorem failed_resolution_caches_nothing (E : Env) (gameName tagLine e : string)
  (w w' : World) :
  GetOrCachePlayer E gameName tagLine w = Ret (Err e) w' ->
  playersFile w' = playersFile w /\ fileWrites w' = fileWrites w
  /\ sent w' = sent w /\ playerCacheLock w' = false.
Proof.
  intros H. destruct (GetOrCachePlayer_inv _ _ _ _ _ _ H) as (_ & [Hhit | [Herr | Hok]]).
  - destruct Hhit as (p & _ & Hr & _). discriminate Hr.
  - destruct Herr as (_ & e0 & _ & Hpf & Hfw & Hl & Hs). auto.
  - destruct Hok as (_ & entry & u1 & u2 & Hr & _). discriminate Hr.
Qed.

(** The account lookup is refused with status 403. *)
Definition refusedEnv : Env :=
  Scenario.env (Scenario.peer "/riot/account/" (Response 403 "forbidden")) Scenario.registry
    map_to_list (fun _ => true) stubMarshal stubUnmarshal.

Lemma failed_resolution_caches_nothing_witness :
  let w' := worldOf (GetOrCachePlayer refusedEnv "Faker" "KR1" (Scenario.world None None)) in
  playersFile w' = playersFile (Scenario.world None None)
  /\ fileWrites w' = fileWrites (Scenario.world None None)
  /\ sent w' = sent (Scenario.world None None) /\ playerCacheLock w' = false.
Proof.
  cbv zeta.
  apply (failed_resolution_caches_nothing refusedEnv "Faker" "KR1" "request failed 403: forbidden").
  vm_compute. reflexivity.
Defined.



(** ** The champion table, continued *)

(** X8: the table is loaded at most once.  After a load that succeeded,
    every later load returns at once and changes nothing, whatever
    champions.json holds by then. *)
Theorem champion_table_loads_once (E : Env) (w w1 w2 : World) :
  LoadChampionMap E w = Ret (Ok tt) w1 ->
  championsMap w2 = championsMap w1 ->
  championsMu w2 = false ->
  LoadChampionMap E w2 = Ret (Ok tt) w2.
Proof.
  intros Hload Hmap Hmu.
  assert (Hsome : exists m, championsMap w1 = Some m).
  { unfold LoadChampionMap, locked, bind, lockWith, getWorld, unlockWith, ret in Hload.
    destruct (championsMu w); [discriminate|].
    cbn [championsMap championsFile set_championsMu] in Hload.
    destruct (championsMap w) as [m|] eqn:Hm.
    - injection Hload as <-. exists m. exact Hm.
    - destruct (championsFile w) as [data|]; [|discriminate].
      destruct (unmarshalChampions E data) as [l|e]; [|discriminate].
      injection Hload as <-. eexists. reflexivity. }
  destruct Hsome as (m & Hm). rewrite Hm in Hmap.
  unfold LoadChampionMap, locked, bind, lockWith, getWorld, unlockWith, ret.
  rewrite Hmu. cbn [championsMap set_championsMu]. rewrite Hmap.
  f_equal. destruct w2; cbn in *. now subst.
Qed.

Lemma champion_table_loads_once_witness :
  let w1 := worldOf (LoadChampionMap steadyEnv (Scenario.world None (Some "champions"))) in
  LoadChampionMap steadyEnv w1 = Ret (Ok tt) w1.
Proof.
  cbv zeta.
  apply (champion_table_loads_once steadyEnv (Scenario.world None (Some "champions"))
           (worldOf (LoadChampionMap steadyEnv (Scenario.world None (Some "champions"))))).
  - vm_compute. reflexivity.
  - reflexivity.
  - vm_compute. reflexivity.
Defined.

(** Every name of the converted table comes from an entry whose key
    [strconv.Atoi] reads as that identifier. *)
Lemma convertChampions_source acc l id name :
  convertChampions acc l !! id = Some name ->
  acc !! id = Some name \/ exists idStr, In (idStr, name) l /\ Atoi idStr = Some id.
Proof.
  revert acc. induction l as [|[idStr n] l IH]; intros acc H; [now left|].
  cbn [convertChampions] in H.
  destruct (Atoi idStr) as [z|] eqn:Hz.
  - destruct (IH _ H) as [Hacc | (s & Hin & Hs)].
    + rewrite lookup_insert in Hacc. destruct (decide (z = id)) as [->|_].
      * injection Hacc as ->. right. exists idStr. split; [now left | exact Hz].
      * now left.
    + right. exists s. split; [now right | exact Hs].
  - destruct (IH _ H) as [Hacc | (s & Hin & Hs)]; [now left|].
    right. exists s. split; [now right | exact Hs].
Qed.

(** X9: after a load from a readable, well-formed champions.json, a lookup
    returns, changes nothing, and yields either the placeholder
    [Unknown(<id>)] or a name that the file gives under a key that reads as
    the identifier. *)
Theorem champion_name_after_load (E : Env) (w w1 : World) (data : string)
  (entries : list (string * string)) (id : Z) :
  championsMap w = None ->
  championsFile w = Some data ->
  unmarshalChampions E data = Ok entries ->
  LoadChampionMap E w = Ret (Ok tt) w1 ->
  exists name,
    GetChampionName E id w1 = Ret name w1
    /\ (name = ("Unknown(" ++ Itoa id ++ ")")%string
        \/ exists idStr, In (idStr, name) entries /\ Atoi idStr = Some id).
Proof.
  intros Hnil Hfile Hdec Hload.
  unfold LoadChampionMap, locked, bind, lockWith, getWorld, unlockWith, ret in Hload.
  destruct (championsMu w) eqn:Hmu; [discriminate|].
  cbn [championsMap championsFile set_championsMu] in Hload.
  rewrite Hnil, Hfile, Hdec in Hload. injection Hload as <-.
  eexists. split.
  - apply GetChampionName_loaded; reflexivity.
  - destruct (convertChampions ∅ entries !! id) as [name|] eqn:Hlook; [|now left].
    right. destruct (convertChampions_source _ _ _ _ Hlook) as [Hacc|Hsrc]; [|exact Hsrc].
    rewrite lookup_empty in Hacc. discriminate.
Qed.

Lemma champion_name_after_load_witness :
  let w1 := worldOf (LoadChampionMap steadyEnv (Scenario.world None (Some "champions"))) in
  exists name,
    GetChampionName steadyEnv 1 w1 = Ret name w1
    /\ (name = ("Unknown(" ++ Itoa 1 ++ ")")%string
        \/ exists idStr, In (idStr, name) [("1", "Aatrox")] /\ Atoi idStr = Some 1).
Proof.
  cbv zeta.
  apply (champion_name_after_load steadyEnv (Scenario.world None (Some "champions")) _
           "champions" [("1", "Aatrox")] 1).
  - reflexivity.
  - reflexivity.
  - reflexivity.
  - vm_compute. reflexivity.
Defined.

(** ** Bans, continued *)

Definition championLabel (m : gmap Z string) (id : Z) : string :=
  match m !! id with
  | Some name => name
  | None => ("Unknown(" ++ Itoa id ++ ")")%string
  end.

Lemma mapM_GetChampionName_loaded E (l : list bannedChampion) w m :
  championsMap w = Some m -> championsMu w = false ->
  mapM (fun b => GetChampionName E (ChampionID b)) l w
  = Ret (List.map (fun b => championLabel m (ChampionID b)) l) w.
Proof.
  intros Hm Hmu. induction l as [|b l IH]; [reflexivity|].
  cbn [mapM List.map]. unfold bind at 1.
  rewrite (GetChampionName_loaded E (ChampionID b) w m Hm Hmu).
  unfold bind at 1. rewrite IH. reflexivity.
Qed.

(** X10: with the table loaded, a successful active-game lookup yields one
    label per banned champion, in the order of the answer: the name from
    the table, or [Unknown(<id>)] for an identifier the table lacks.
    Nothing but the log of requests changes. *)
Theorem bans_are_labelled_in_order (E : Env) (puuid body : string) (w : World)
  (m : gmap Z string) :
  RIOT_TOKEN E <> "" ->
  httpDo E (List.length (requests w)) (bansURL E puuid) = Response 200 body ->
  championsMap w = Some m ->
  championsMu w = false ->
  GetActiveMatchBans E puuid w
  = Ret (Ok (List.map (fun b => championLabel m (ChampionID b))
               (BannedChampions (unmarshalSpectator E body))))
      (set_requests (cons (bansURL E puuid)) w).
Proof.
  intros Htok Hans Hm Hmu.
  unfold GetActiveMatchBans. unfold bind at 1.
  rewrite (makeRequest_platform E _ w Htok). cbv zeta.
  change (httpDo E (List.length (requests w)) _)
    with (httpDo E (List.length (requests w)) (bansURL E puuid)).
  rewrite Hans. change (200 =? 200) with true. cbv iota.
  unfold bind at 1.
  rewrite (mapM_GetChampionName_loaded E _ _ m); [reflexivity | exact Hm | exact Hmu].
Qed.

Lemma bans_are_labelled_in_order_witness :
  let w := set_championsMap (Some {[ 1 := "Aatrox" ]}) (Scenario.world None None) in
  GetActiveMatchBans inGameEnv "p-1" w
  = Ret (Ok (List.map (fun b => championLabel {[ 1 := "Aatrox" ]} (ChampionID b))
               (BannedChampions (unmarshalSpectator inGameEnv "bans"))))
      (set_requests (cons (bansURL inGameEnv "p-1")) w).
Proof.
  cbv zeta. apply bans_are_labelled_in_order.
  - discriminate.
  - vm_compute. reflexivity.
  - reflexivity.
  - reflexivity.
Defined.

(** ** Session statistics, continued *)

Lemma countMatch_inv E puuid acc matchID w acc' w' :
  countMatch E puuid acc matchID w = Ret acc' w' ->
  quiet w w' /\ fst acc <= fst acc' /\ snd acc <= snd acc'
  /\ fst acc' + snd acc' <= fst acc + snd acc + 1.
Proof.
  destruct acc as [wins losses]. unfold countMatch, bind.
  destruct (makeRequest E "regional" _ w) as [r wa| | |] eqn:Hreq; try discriminate.
  pose proof (makeRequest_quiet _ _ _ _ _ _ Hreq) as Hq.
  assert (Hsame : ret (wins, losses) wa = Ret acc' w' ->
            quiet w w' /\ fst (wins, losses) <= fst acc' /\ snd (wins, losses) <= snd acc'
            /\ fst acc' + snd acc' <= fst (wins, losses) + snd (wins, losses) + 1).
  { unfold ret. intros [= <- <-]. split; [exact Hq | cbn [fst snd]; lia]. }
  destruct r as [matchData|e]; [|exact Hsame].
  destruct (jsonIndex (unmarshalMatch E matchData) "info") as [|b|f|s|l|info];
    try exact Hsame.
  destruct (jsonIndex info "participants") as [|b|f|s|participants|m]; try exact Hsame.
  destruct (findParticipant puuid participants) as [[|]|]; [| |exact Hsame];
    unfold ret; intros [= <- <-]; (split; [exact Hq | cbn [fst snd]; lia]).
Qed.

Lemma foldM_countMatch_inv E puuid ids acc w acc' w' :
  foldM (countMatch E puuid) acc ids w = Ret acc' w' ->
  quiet w w' /\ fst acc <= fst acc' /\ snd acc <= snd acc'
  /\ fst acc' + snd acc' <= fst acc + snd acc + Z.of_nat (List.length ids).
Proof.
  revert acc w. induction ids as [|matchID ids IH]; intros acc w.
  - cbn [foldM]. unfold ret. intros [= <- <-].
    split; [apply quiet_refl | cbn [List.length]; lia].
  - cbn [foldM]. unfold bind at 1.
    destruct (countMatch E puuid acc matchID w) as [acc1 w1| | |] eqn:Hc; try discriminate.
    intros Hrest. apply countMatch_inv in Hc. apply IH in Hrest.
    destruct Hc as (Hq1 & ? & ? & ?). destruct Hrest as (Hq2 & ? & ? & ?).
    split; [eapply quiet_trans; eauto|]. cbn [List.length]. lia.
Qed.

Lemma GetCurrentRank_quiet E puuid w r w' :
  GetCurrentRank E puuid w = Ret r w' -> quiet w w'.
Proof.
  unfold GetCurrentRank, bind.
  destruct (makeRequest E "platform" _ w) as [rq wq| | |] eqn:Hreq; try discriminate.
  pose proof (makeRequest_quiet _ _ _ _ _ _ Hreq) as Hq.
  destruct rq; unfold ret; intros [= _ <-]; exact Hq.
Qed.

Definition statsKey (puuid : string) (startTime : Z) : string :=
  (puuid ++ "_" ++ Itoa startTime)%string.

(** The shape of every return of [GetStreamStats]. *)
Lemma GetStreamStats_inv E puuid startTime w r w' :
  GetStreamStats E puuid startTime w = Ret r w' ->
  streamCacheMu w = false /\ streamCacheMu w' = false /\ sent w' = sent w
  /\ ((exists val, streamCache w !! statsKey puuid startTime = Some val
                   /\ r = Ok val /\ requests w' = requests w
                   /\ streamCache w' = streamCache w)
      \/ (streamCache w !! statsKey puuid startTime = None
          /\ exists e, r = Err e /\ streamCache w' = streamCache w)
      \/ (streamCache w !! statsKey puuid startTime = None
          /\ exists entry data host,
               r = Ok entry
               /\ streamCache w' = <[statsKey puuid startTime := entry]> (streamCache w)
               /\ httpDo E (List.length (requests w))
                    ("https://" ++ host
                       ++ ("/lol/match/v5/matches/by-puuid/" ++ puuid ++ "/ids?startTime="
                             ++ Itoa startTime ++ "&endTime="
                             ++ Itoa (unixSec (timeNow E (clockReads w)))))%string
                  = Response 200 data
               /\ 0 <= Wins entry /\ 0 <= Losses entry
               /\ Wins entry + Losses entry
                  <= Z.of_nat (List.length (unmarshalMatchIDs E data)))).
Proof.
  intros Hrun. unfold GetStreamStats in Hrun.
  unfold bind at 1 in Hrun. unfold now at 1 in Hrun.
  unfold bind at 1 in Hrun. unfold lockWith at 1 in Hrun.
  cbn [streamCacheMu set_clockReads] in Hrun.
  destruct (streamCacheMu w) eqn:Hmu; [discriminate|]. split; [reflexivity|].
  unfold bind at 1 in Hrun. unfold getWorld at 1 in Hrun.
  unfold bind at 1 in Hrun. unfold unlockWith at 1 in Hrun.
  cbn [streamCache set_streamCacheMu set_clockReads] in Hrun.
  fold (statsKey puuid startTime) in Hrun.
  set (w0 := set_streamCacheMu false (set_streamCacheMu true (set_clockReads S w))) in *.
  assert (Hq0 : quiet w w0) by (subst w0; repeat split; cbn; auto).
  assert (Hreq0 : requests w0 = requests w) by reflexivity.
  destruct (streamCache w !! statsKey puuid startTime) as [val|] eqn:Hhit.
  - unfold ret in Hrun. injection Hrun as <- <-.
    split; [reflexivity|]. split; [reflexivity|]. left. exists val. auto.
  - unfold bind at 1 in Hrun.
    destruct (makeRequest E "regional" _ w0) as [r1 w1| | |] eqn:Hreq1; try discriminate.
    pose proof (makeRequest_quiet _ _ _ _ _ _ Hreq1) as Hq1.
    destruct r1 as [data|e].
    + unfold bind at 1 in Hrun.
      destruct (foldM (countMatch E puuid) (0, 0) (unmarshalMatchIDs E data) w1)
        as [[wins losses] w2| | |] eqn:Hfold; try discriminate.
      apply foldM_countMatch_inv in Hfold. cbn [fst snd] in Hfold.
      destruct Hfold as (Hq2 & Hwins & Hlosses & Hbound).
      unfold bind at 1 in Hrun.
      destruct (GetCurrentRank E puuid w2) as [rk w3| | |] eqn:Hrank; try discriminate.
      apply GetCurrentRank_quiet in Hrank.
      destruct (fillLP wins losses _ (∅, ∅)) as [lpStart lpEnd].
      pose proof (quiet_trans _ _ _ Hq0 (quiet_trans _ _ _ Hq1 (quiet_trans _ _ _ Hq2 Hrank)))
        as Hq.
      destruct Hq as (_ & Hs & _ & _ & _ & _ & Hsc & _ & _ & Hsm).
      unfold bind at 1 in Hrun. unfold now at 1 in Hrun.
      unfold bind at 1 in Hrun. unfold lockWith at 1 in Hrun.
      cbn [streamCacheMu set_clockReads] in Hrun. rewrite Hsm, Hmu in Hrun.
      unfold bind, unlockWith, ret in Hrun. injection Hrun as <- <-.
      cbn [streamCacheMu sent streamCache set_streamCacheMu set_streamCache set_clockReads].
      split; [reflexivity|]. split; [exact Hs|]. right. right.
      split; [reflexivity|].
      destruct (makeRequest_ok_inv _ _ _ _ _ _ Hreq1) as (_ & host & _ & Hans & _).
      eexists _, data, host. split; [reflexivity|]. rewrite Hsc.
      split; [reflexivity|]. split; [exact Hans|]. cbn [Wins Losses]. lia.
    + unfold ret in Hrun. injection Hrun as <- <-.
      pose proof (quiet_trans _ _ _ Hq0 Hq1) as (_ & Hs & _ & _ & _ & _ & Hsc & _ & _ & Hsm).
      split; [congruence|]. split; [exact Hs|]. right. left.
      split; [reflexivity|]. exists e. auto.
Qed.

Lemma GetStreamStats_hit E puuid startTime w val :
  streamCacheMu w = false ->
  streamCache w !! statsKey puuid startTime = Some val ->
  GetStreamStats E puuid startTime w = Ret (Ok val) (set_clockReads S w).
Proof.
  intros Hmu Hhit. unfold GetStreamStats.
  unfold bind at 1. unfold now at 1.
  unfold bind at 1. unfold lockWith at 1. cbn [streamCacheMu set_clockReads]. rewrite Hmu.
  unfold bind at 1. unfold getWorld at 1.
  unfold bind at 1. unfold unlockWith at 1.
  cbn [streamCache set_streamCacheMu set_clockReads].
  fold (statsKey puuid startTime). rewrite Hhit. unfold ret. f_equal.
  destruct w; cbn in *. now subst.
Qed.

(** X11: the statistics of a window are computed once.  After a call that
    returned an entry, a call for the same subject and start time returns
    that entry again; it reads the clock and does nothing else: no
    request, no frame, no change of the cache. *)
Theorem stream_stats_are_memoized (E : Env) (puuid : string) (startTime : Z)
  (entry : StreamStatsCacheEntry) (w w1 w2 : World) :
  GetStreamStats E puuid startTime w = Ret (Ok entry) w1 ->
  streamCache w2 = streamCache w1 ->
  streamCacheMu w2 = false ->
  GetStreamStats E puuid startTime w2 = Ret (Ok entry) (set_clockReads S w2).
Proof.
  intros Hrun Hcache Hmu.
  apply GetStreamStats_hit; [exact Hmu|]. rewrite Hcache.
  destruct (GetStreamStats_inv _ _ _ _ _ _ Hrun) as (_ & _ & _ & [Hhit | [Herr | Hnew]]).
  - destruct Hhit as (val & Hval & [= <-] & _ & ->). exact Hval.
  - destruct Herr as (_ & e & Hr & _). discriminate Hr.
  - destruct Hnew as (_ & en & data & host & [= <-] & -> & _). apply lookup_insert_eq.
Qed.

Lemma stream_stats_are_memoized_witness :
  let run1 := GetStreamStats steadyEnv "p-1" 0 (Scenario.world None None) in
  GetStreamStats steadyEnv "p-1" 0 (worldOf run1)
  = Ret (Ok {| Wins := 0; Losses := 0; Winrate := 0%float;
               LPStart := ∅; LPEnd := ∅; CachedAt := 1700000001 |})
      (set_clockReads S (worldOf run1)).
Proof.
  cbv zeta.
  apply (stream_stats_are_memoized steadyEnv "p-1" 0 _ (Scenario.world None None)
           (worldOf (GetStreamStats steadyEnv "p-1" 0 (Scenario.world None None)))).
  - vm_compute. reflexivity.
  - reflexivity.
  - vm_compute. reflexivity.
Defined.

(** X12: a failure is not cached: when [GetStreamStats] returns an error
    the cache is as it was (so the next call asks again), no frame was
    written and the mutex is free. *)
Theorem stream_stats_failure_is_not_cached (E : Env) (puuid e : string) (startTime : Z)
  (w w' : World) :
  GetStreamStats E puuid startTime w = Ret (Err e) w' ->
  streamCache w' = streamCache w /\ sent w' = sent w /\ streamCacheMu w' = false
  /\ streamCache w !! statsKey puuid startTime = None.
Proof.
  intros Hrun.
  destruct (GetStreamStats_inv _ _ _ _ _ _ Hrun) as (_ & Hmu & Hs & [Hhit | [Herr | Hnew]]).
  - destruct Hhit as (val & _ & Hr & _). discriminate Hr.
  - destruct Herr as (Hmiss & e0 & _ & Hsc). auto.
  - destruct Hnew as (_ & en & data & host & Hr & _). discriminate Hr.
Qed.

(** The list of matches cannot be fetched: status 503. *)
Definition matchListDownEnv : Env :=
  Scenario.env (Scenario.peer "/lol/match/v5/matches/by-puuid/" (Response 503 "busy"))
    Scenario.registry map_to_list (fun _ => true) stubMarshal stubUnmarshal.

Lemma stream_stats_failure_is_not_cached_witness :
  let w' := worldOf (GetStreamStats matchListDownEnv "p-1" 0 (Scenario.world None None)) in
  streamCache w' = streamCache (Scenario.world None None)
  /\ sent w' = sent (Scenario.world None None) /\ streamCacheMu w' = false
  /\ streamCache (Scenario.world None None) !! statsKey "p-1" 0 = None.
Proof.
  cbv zeta.
  apply (stream_stats_failure_is_not_cached matchListDownEnv "p-1" "request failed 503: busy").
  vm_compute. reflexivity.
Defined.

(** X13: a freshly computed entry counts every match at most once: wins
    and losses are not negative and together do not exceed the number of
    match identifiers in the answer to the list request. *)
Theorem stream_stats_count_each_match_once (E : Env) (puuid : string) (startTime : Z)
  (entry : StreamStatsCacheEntry) (w w' : World) :
  GetStreamStats E puuid startTime w = Ret (Ok entry) w' ->
  streamCache w !! statsKey puuid startTime = None ->
  exists data url,
    httpDo E (List.length (requests w)) url = Response 200 data
    /\ 0 <= Wins entry /\ 0 <= Losses entry
    /\ Wins entry + Losses entry <= Z.of_nat (List.length (unmarshalMatchIDs E data)).
Proof.
  intros Hrun Hmiss.
  destruct (GetStreamStats_inv _ _ _ _ _ _ Hrun) as (_ & _ & _ & [Hhit | [Herr | Hnew]]).
  - destruct Hhit as (val & Hval & _). congruence.
  - destruct Herr as (_ & e & Hr & _). discriminate Hr.
  - destruct Hnew as (_ & en & data & host & [= <-] & _ & Hans & Hw & Hl & Hb).
    eexists data, _. split; [exact Hans|]. auto.
Qed.

(** [E] with other decoders for the list of matches and for a match. *)
Definition withMatches (E : Env) (ids : string -> list string)
  (detail : string -> list (string * json)) : Env :=
  {| TWITCH_BOT_USERNAME := TWITCH_BOT_USERNAME E; TWITCH_OAUTH_TOKEN := TWITCH_OAUTH_TOKEN E;
     TWITCH_CHANNEL := TWITCH_CHANNEL E; SUMMONER_NAME := SUMMONER_NAME E;
     SUMMONER_TAG := SUMMONER_TAG E; TWITCH_CLIENT_ID := TWITCH_CLIENT_ID E;
     TWITCH_CLIENT_SECRET := TWITCH_CLIENT_SECRET E; RIOT_TOKEN := RIOT_TOKEN E;
     RIOT_PLATFORM := RIOT_PLATFORM E; RIOT_REGION := RIOT_REGION E;
     httpDo := httpDo E; timeNow := timeNow E; writeFileOk := writeFileOk E;
     dialOk := dialOk E; commandsFile := commandsFile E;
     unmarshalCommands := unmarshalCommands E; rangeCommands := rangeCommands E;
     decodeAppToken := decodeAppToken E;
     unmarshalPlayerCache := unmarshalPlayerCache E;
     marshalPlayerCache := marshalPlayerCache E;
     unmarshalAccount := unmarshalAccount E; unmarshalSummoner := unmarshalSummoner E;
     unmarshalChampions := unmarshalChampions E; unmarshalLeague := unmarshalLeague E;
     unmarshalSpectator := unmarshalSpectator E;
     unmarshalMatchIDs := ids; unmarshalMatch := detail;
     decodeStreams := decodeStreams E; decodeStartedAt := decodeStartedAt E;
     parseRFC3339Unix := parseRFC3339Unix E; formatFloat2 := formatFloat2 E |}.

Definition matchDetail (won : bool) : list (string * json) :=
  [("info", JObject [("participants",
      JArray [ JObject [("puuid", JString "someone"); ("win", JBool (negb won))];
               JObject [("puuid", JString "p-1"); ("win", JBool won)] ])])].

(** Three matches since the start of the stream: one won, one lost, and
    one whose detail cannot be fetched. *)
Definition threeMatchesEnv : Env :=
  withMatches
    (Scenario.env
       (fun _ url =>
          if Contains url "/matches/m1" then Response 200 "won"
          else if Contains url "/matches/m2" then Response 200 "lost"
          else if Contains url "/matches/m3" then Response 500 "oops"
          else Response 200 "ok")
       Scenario.registry map_to_list (fun _ => true) stubMarshal stubUnmarshal)
    (fun _ => ["m1"; "m2"; "m3"])
    (fun body => if String.eqb body "won" then matchDetail true
                 else if String.eqb body "lost" then matchDetail false
                 else []).

Lemma stream_stats_count_each_match_once_witness :
  GetStreamStats threeMatchesEnv "p-1" 0 (Scenario.world None None)
  = Ret (Ok {| Wins := 1; Losses := 1; Winrate := 50%float;
               LPStart := ∅; LPEnd := ∅; CachedAt := 1700000001 |})
      (worldOf (GetStreamStats threeMatchesEnv "p-1" 0 (Scenario.world None None)))
  /\ exists data url,
       httpDo threeMatchesEnv (List.length (requests (Scenario.world None None))) url
       = Response 200 data
       /\ 0 <= 1 /\ 0 <= 1
       /\ 1 + 1 <= Z.of_nat (List.length (unmarshalMatchIDs threeMatchesEnv data)).
Proof.
  assert (Hrun : GetStreamStats threeMatchesEnv "p-1" 0 (Scenario.world None None)
                 = Ret (Ok {| Wins := 1; Losses := 1; Winrate := 50%float;
                              LPStart := ∅; LPEnd := ∅; CachedAt := 1700000001 |})
                     (worldOf (GetStreamStats threeMatchesEnv "p-1" 0
                                 (Scenario.world None None))))
    by (vm_compute; reflexivity).
  split; [exact Hrun|].
  apply (stream_stats_count_each_match_once threeMatchesEnv "p-1" 0 _ _ _ Hrun).
  reflexivity.
Defined.

(** ** Frames per dispatch *)

Lemma GetTwitchStreamInfo_sent E channel w r w' :
  GetTwitchStreamInfo E channel w = Ret r w' -> sent w' = sent w.
Proof.
  unfold GetTwitchStreamInfo, bind, getWorld, httpGet, ret.
  destruct (_ || _); [intros [= _ <-]; reflexivity|].
  destruct (httpDo E _ _) as [|e|status body]; [discriminate| |].
  - intros [= _ <-]. reflexivity.
  - destruct (decodeStreams E body) as [[|d l]|e]; intros [= _ <-]; reflexivity.
Qed.

Lemma GetTwitchStreamStart_sent E channel w r w' :
  GetTwitchStreamStart E channel w = Ret r w' -> sent w' = sent w.
Proof.
  unfold GetTwitchStreamStart, bind, getWorld, httpGet, ret.
  destruct (_ || _); [intros [= _ <-]; reflexivity|].
  destruct (httpDo E _ _) as [|e|status body]; [discriminate| |].
  - intros [= _ <-]. reflexivity.
  - destruct (decodeStartedAt E body) as [|d l]; intros [= _ <-]; reflexivity.
Qed.

Lemma GetActiveMatchBans_sent E puuid w r w' :
  GetActiveMatchBans E puuid w = Ret r w' -> sent w' = sent w.
Proof.
  unfold GetActiveMatchBans. unfold bind at 1.
  destruct (makeRequest E "platform" _ w) as [rq wq| | |] eqn:Hreq; try discriminate.
  pose proof (makeRequest_quiet _ _ _ _ _ _ Hreq) as (_ & Hsq & _).
  destruct rq as [data|e].
  - unfold bind at 1.
    destruct (mapM _ _ wq) as [names wm| | |] eqn:Hm; try discriminate.
    apply mapM_GetChampionName_sent in Hm. unfold ret. intros [= _ <-]. congruence.
  - destruct (Contains e "404"); unfold ret; intros [= _ <-]; exact Hsq.
Qed.

(** A frame that answers [user] in [channel]. *)
Definition answers (channel user frame : string) : Prop :=
  exists text,
    frame = ("PRIVMSG #" ++ channel ++ " :" ++ ("@" ++ user ++ text) ++ CRLF)%string.

Lemma dispatch_frames (E : Env) (channel puuid user : string)
  (cfg : CommandConfig) (w w' : World) :
  dispatch E channel puuid cfg user w = Ret tt w' ->
  exists frames,
    sent w' = (frames ++ sent w)%list
    /\ (List.length frames <= 2)%nat
    /\ (List.length frames = 2%nat ->
        Type_ cfg = "api" /\ Endpoint cfg = "stream_stats_info")
    /\ Forall (answers channel user) frames.
Proof.
  assert (Hone : forall text w0 w1,
            sent w0 = sent w ->
            say channel ("@" ++ user ++ text)%string w0 = Ret tt w1 ->
            exists frames,
              sent w1 = (frames ++ sent w)%list
              /\ (List.length frames <= 2)%nat
              /\ (List.length frames = 2%nat ->
                  Type_ cfg = "api" /\ Endpoint cfg = "stream_stats_info")
              /\ Forall (answers channel user) frames).
  { intros text w0 w1 Hs [= <-]. eexists [_]. cbn [sent set_sent app List.length].
    rewrite Hs. split; [reflexivity|]. split; [lia|]. split; [discriminate|].
    constructor; [|constructor]. exists text. reflexivity. }
  assert (Hnone : Ret tt w = Ret tt w' ->
            exists frames,
              sent w' = (frames ++ sent w)%list
              /\ (List.length frames <= 2)%nat
              /\ (List.length frames = 2%nat ->
                  Type_ cfg = "api" /\ Endpoint cfg = "stream_stats_info")
              /\ Forall (answers channel user) frames).
  { intros [= <-]. exists []. cbn. split; [reflexivity|]. split; [lia|].
    split; [discriminate | constructor]. }
  unfold dispatch.
  destruct (String.eqb (Type_ cfg) "static"); [apply Hone; reflexivity|].
  destruct (String.eqb (Type_ cfg) "api") eqn:Hapi; [|exact Hnone].
  apply String.eqb_eq in Hapi.
  destruct (String.eqb (Endpoint cfg) "twitch_stream_info").
  { unfold bind at 1.
    destruct (GetTwitchStreamInfo E channel w) as [r w1| | |] eqn:Hr; try discriminate.
    apply GetTwitchStreamInfo_sent in Hr.
    destruct r as [[title game]|e]; [|now apply Hone].
    destruct (String.eqb title "Offline"); now apply Hone. }
  destruct (String.eqb (Endpoint cfg) "riot_rank_info").
  { unfold bind at 1.
    destruct (GetCurrentRank E puuid w) as [r w1| | |] eqn:Hr; try discriminate.
    apply GetCurrentRank_quiet in Hr. destruct Hr as (_ & Hs & _).
    unfold bind at 1, index.
    destruct (_ !! 0%nat) as [r0|]; [|discriminate].
    unfold ret at 1. now apply Hone. }
  destruct (String.eqb (Endpoint cfg) "stream_stats_info") eqn:Hstats.
  { apply String.eqb_eq in Hstats.
    unfold bind at 1.
    destruct (GetTwitchStreamStart E channel w) as [r w1| | |] eqn:Hr; try discriminate.
    apply GetTwitchStreamStart_sent in Hr.
    destruct r as [start|e].
    - unfold bind at 1, ret at 1. unfold bind at 1.
      destruct (GetStreamStats E puuid start w1) as [st w2| | |] eqn:Hst; try discriminate.
      apply GetStreamStats_inv in Hst. destruct Hst as (_ & _ & Hs2 & _).
      destruct st; apply Hone; congruence.
    - unfold bind at 1. unfold bind at 1. unfold say at 1, write at 1.
      unfold ret at 1. unfold bind at 1.
      destruct (GetStreamStats E puuid 0 _) as [st w2| | |] eqn:Hst; try discriminate.
      apply GetStreamStats_inv in Hst. destruct Hst as (_ & _ & Hs2 & _).
      cbn [sent set_sent] in Hs2. rewrite Hr in Hs2.
      assert (Htwo : forall text,
                say channel ("@" ++ user ++ text)%string w2 = Ret tt w' ->
                exists frames,
                  sent w' = (frames ++ sent w)%list
                  /\ (List.length frames <= 2)%nat
                  /\ (List.length frames = 2%nat ->
                      Type_ cfg = "api" /\ Endpoint cfg = "stream_stats_info")
                  /\ Forall (answers channel user) frames).
      { intros text [= <-]. eexists [_; _]. cbn [sent set_sent app List.length].
        rewrite Hs2. split; [reflexivity|]. split; [lia|]. split; [auto|].
        constructor; [exists text; reflexivity|].
        constructor; [|constructor]. eexists. reflexivity. }
      destruct st; apply Htwo. }
  destruct (String.eqb (Endpoint cfg) "current_bans_info"); [|exact Hnone].
  unfold bind at 1.
  destruct (GetActiveMatchBans E puuid w) as [r w1| | |] eqn:Hr; try discriminate.
  apply GetActiveMatchBans_sent in Hr.
  destruct r; now apply Hone.
Qed.

(** X14: a dispatch that returns has written at most two frames, and two
    only for the endpoint [stream_stats_info]; nothing that was written
    before is lost, and every frame answers the sender in the channel and
    ends the line. *)
Theorem dispatch_writes_at_most_two_frames (E : Env) (channel puuid user : string)
  (cfg : CommandConfig) (w w' : World) :
  dispatch E channel puuid cfg user w = Ret tt w' ->
  exists frames,
    sent w' = (frames ++ sent w)%list
    /\ (List.length frames <= 2)%nat
    /\ (List.length frames = 2%nat ->
        Type_ cfg = "api" /\ Endpoint cfg = "stream_stats_info")
    /\ Forall (answers channel user) frames.
Proof. apply dispatch_frames. Qed.

Lemma dispatch_writes_at_most_two_frames_witness :
  let w := Scenario.world None None in
  let w' := worldOf (dispatch calmEnv "chan" "p-1" (Scenario.api "stream_stats_info" 2) "bob" w) in
  exists frames,
    sent w' = (frames ++ sent w)%list
    /\ (List.length frames <= 2)%nat
    /\ (List.length frames = 2%nat ->
        Type_ (Scenario.api "stream_stats_info" 2) = "api"
        /\ Endpoint (Scenario.api "stream_stats_info" 2) = "stream_stats_info")
    /\ Forall (answers "chan" "bob") frames.
Proof.
  cbv zeta.
  apply (dispatch_writes_at_most_two_frames calmEnv "chan" "p-1" "bob").
  vm_compute. reflexivity.
Defined.

(** ** The cooldown table *)

(** X15: a round of the loop changes the cooldown table at one key at
    most, the token of the message it dispatched; the entries of all other
    commands stay as they are. *)
Theorem handleLine_touches_one_token (E : Env) (channel puuid rawLine : string)
  (commands : gmap string CommandConfig) (lastUsed lastUsed' : gmap string Time)
  (w w' : World) :
  handleLine E channel puuid commands lastUsed rawLine w = Ret lastUsed' w' ->
  lastUsed' = lastUsed
  \/ exists user msg k,
       classify rawLine = FMessage user msg
       /\ is_Some (commands !! normalize msg)
       /\ clockReads w' = S k
       /\ lastUsed' = <[normalize msg := timeNow E k]> lastUsed.
Proof.
  unfold handleLine.
  destruct (classify rawLine) as [| | |user msg].
  - unfold bind, write, ret. intros [= <- _]. now left.
  - unfold ret. intros [= <- _]. now left.
  - discriminate.
  - destruct (commands !! normalize msg) as [cfg|] eqn:Hcmd;
      [|unfold ret; intros [= <- _]; now left].
    unfold bind at 1.
    assert (Hrest : forall w0,
              (do _ <- dispatch E channel puuid cfg user;
               do t <- now E; ret (<[normalize msg := t]> lastUsed)) w0
              = Ret lastUsed' w' ->
              lastUsed' = lastUsed
              \/ exists user0 msg0 k,
                   FMessage user msg = FMessage user0 msg0
                   /\ is_Some (commands !! normalize msg0)
                   /\ clockReads w' = S k
                   /\ lastUsed' = <[normalize msg0 := timeNow E k]> lastUsed).
    { intros w0. unfold bind at 1.
      destruct (dispatch E channel puuid cfg user w0) as [[] wd| | |]; try discriminate.
      unfold bind, now, ret. intros [= <- <-]. right.
      exists user, msg, (clockReads wd). rewrite Hcmd. eauto. }
    destruct (lastUsed !! normalize msg) as [t|].
    + unfold bind at 1, now at 1, ret at 1.
      destruct (_ <? _); [unfold ret; intros [= <- _]; now left | apply Hrest].
    + unfold ret at 1. apply Hrest.
Qed.

Lemma handleLine_touches_one_token_witness :
  let commands : gmap string CommandConfig := {[ "!hello" := Scenario.static "hi" 2 ]} in
  let lastUsed : gmap string Time := {[ "!rank" := Scenario.tick 0 ]} in
  let lastUsed' : gmap string Time := <[ "!hello" := Scenario.tick 0 ]> lastUsed in
  let w' := worldOf (handleLine calmEnv "chan" "p-1" commands lastUsed
                       (Scenario.privmsg "bob" "!hello") (Scenario.world None None)) in
  lastUsed' = lastUsed
  \/ exists user msg k,
       classify (Scenario.privmsg "bob" "!hello") = FMessage user msg
       /\ is_Some (commands !! normalize msg)
       /\ clockReads w' = S k
       /\ lastUsed' = <[normalize msg := timeNow calmEnv k]> lastUsed.
Proof.
  cbv zeta.
  apply (handleLine_touches_one_token calmEnv "chan" "p-1" (Scenario.privmsg "bob" "!hello")
           {[ "!hello" := Scenario.static "hi" 2 ]} {[ "!rank" := Scenario.tick 0 ]}
           _ (Scenario.world None None)).
  vm_compute. reflexivity.
Defined.

(** X16: once the cooldown has run out, a static command is answered
    again: one frame with the configured text for the sender, and the time
    stamp of the token set to the reading taken after the answer. *)
Theorem static_command_answers_after_cooldown (E : Env) (channel puuid rawLine user msg : string)
  (commands : gmap string CommandConfig) (lastUsed : gmap string Time)
  (cfg : CommandConfig) (t : Time) (w : World) :
  classify rawLine = FMessage user msg ->
  commands !! normalize msg = Some cfg ->
  Type_ cfg = "static" ->
  lastUsed !! normalize msg = Some t ->
  0 <= Cooldown cfg * Second <= maxInt64 ->
  Cooldown cfg * Second <= monoNs (timeNow E (clockReads w)) - monoNs t <= maxInt64 ->
  handleLine E channel puuid commands lastUsed rawLine w
  = Ret (<[normalize msg := timeNow E (S (clockReads w))]> lastUsed)
      (set_clockReads S
         (set_sent (cons ("PRIVMSG #" ++ channel ++ " :"
                            ++ ("@" ++ user ++ " " ++ Response_ cfg) ++ CRLF)%string)
            (set_clockReads S w))).
Proof.
  intros Hc Hcmd Hstatic Hlast Hfit Hel.
  unfold handleLine. rewrite Hc, Hcmd, Hlast.
  unfold bind at 1. unfold bind at 1, now at 1, ret at 1.
  rewrite DurationSeconds_fits by exact Hfit.
  rewrite Since_fits by lia.
  replace (_ <? _) with false by (symmetry; apply Z.ltb_ge; lia).
  unfold dispatch. rewrite Hstatic. cbn [String.eqb Ascii.eqb Bool.eqb].
  reflexivity.
Qed.

Lemma static_command_answers_after_cooldown_witness :
  let commands : gmap string CommandConfig := {[ "!hello" := Scenario.static "hi" 2 ]} in
  let lastUsed : gmap string Time := {[ "!hello" := Scenario.tick 0 ]} in
  let w := set_clockReads (fun _ => 2%nat) (Scenario.world None None) in
  handleLine calmEnv "chan" "p-1" commands lastUsed (Scenario.privmsg "bob" "!hello") w
  = Ret (<[normalize "!hello" := timeNow calmEnv (S (clockReads w))]> lastUsed)
      (set_clockReads S
         (set_sent (cons ("PRIVMSG #" ++ "chan" ++ " :"
                            ++ ("@" ++ "bob" ++ " " ++ Response_ (Scenario.static "hi" 2))
                            ++ CRLF)%string)
            (set_clockReads S w))).
Proof.
  cbv zeta.
  apply (static_command_answers_after_cooldown calmEnv "chan" "p-1"
           (Scenario.privmsg "bob" "!hello") "bob" "!hello" _ _
           (Scenario.static "hi" 2) (Scenario.tick 0)).
  - vm_compute. reflexivity.
  - vm_compute. reflexivity.
  - reflexivity.
  - vm_compute. reflexivity.
  - unfold Second, maxInt64. cbn. lia.
  - vm_compute. split; intros H; discriminate H.
Defined.

(** ** The application token *)




(** ** Keepalive *)

Definition pong : string := ("PONG :tmi.twitch.tv" ++ CRLF)%string.

(** X18: keepalive probes are answered one for one and touch nothing
    else: on lines that all start with PING the loop writes one PONG frame
    per line, makes no request, reads no clock and returns the cooldown
    table it was given. *)
Theorem keepalive_probes_are_answered_one_for_one (E : Env) (channel puuid : string)
  (commands : gmap string CommandConfig) (lastUsed : gmap string Time)
  (lines : list string) (w : World) :
  Forall (fun l => HasPrefix (TrimSpace l) "PING" = true) lines ->
  exists w',
    mainLoop E channel puuid commands lastUsed lines w = Ret lastUsed w'
    /\ sent w' = (repeat pong (List.length lines) ++ sent w)%list
    /\ requests w' = requests w /\ clockReads w' = clockReads w.
Proof.
  intros Hall. revert w. induction Hall as [|l lines Hl _ IH]; intros w.
  - exists w. cbn. auto.
  - cbn [mainLoop]. unfold bind at 1, handleLine, classify. rewrite Hl.
    unfold bind at 1, write, ret.
    destruct (IH (set_sent (cons ("PONG :tmi.twitch.tv" ++ CRLF)%string) w))
      as (w' & Hrun & Hs & Hr & Hc).
    exists w'. split; [exact Hrun|]. split; [|auto].
    rewrite Hs. cbn [sent set_sent List.length]. fold pong.
    change (repeat pong (S (List.length lines))) with (pong :: repeat pong (List.length lines)).
    rewrite (repeat_cons (List.length lines) pong), <- List.app_assoc. reflexivity.
Qed.

Lemma keepalive_probes_are_answered_one_for_one_witness :
  exists w',
    mainLoop calmEnv "chan" "p-1" ∅ ∅
      [("PING :tmi.twitch.tv" ++ CRLF)%string; ("  PING" ++ CRLF)%string]
      (Scenario.world None None) = Ret ∅ w'
    /\ sent w' = (repeat pong 2 ++ sent (Scenario.world None None))%list
    /\ requests w' = requests (Scenario.world None None)
    /\ clockReads w' = clockReads (Scenario.world None None).
Proof.
  apply (keepalive_probes_are_answered_one_for_one calmEnv "chan" "p-1" ∅ ∅
           [("PING :tmi.twitch.tv" ++ CRLF)%string; ("  PING" ++ CRLF)%string]).
  repeat constructor.
Defined.

(** ** The frames of a whole run *)

(** A frame the loop may write: the keepalive answer, or an answer to
    some sender in the channel. *)
Definition response (channel frame : string) : Prop :=
  frame = pong \/ exists user, answers channel user frame.

Lemma handleLine_frames E channel puuid commands lastUsed rawLine w lastUsed' w' :
  handleLine E channel puuid commands lastUsed rawLine w = Ret lastUsed' w' ->
  exists frames,
    sent w' = (frames ++ sent w)%list /\ Forall (response channel) frames.
Proof.
  unfold handleLine.
  destruct (classify rawLine) as [| | |user msg].
  - unfold bind, write, ret. intros [= _ <-]. exists [pong]. split; [reflexivity|].
    constructor; [now left | constructor].
  - unfold ret. intros [= _ <-]. exists []. split; [reflexivity | constructor].
  - discriminate.
  - destruct (commands !! normalize msg) as [cfg|];
      [|unfold ret; intros [= _ <-]; exists []; split; [reflexivity | constructor]].
    unfold bind at 1.
    assert (Hrest : forall w0, sent w0 = sent w ->
              (do _ <- dispatch E channel puuid cfg user;
               do t <- now E; ret (<[normalize msg := t]> lastUsed)) w0
              = Ret lastUsed' w' ->
              exists frames,
                sent w' = (frames ++ sent w)%list /\ Forall (response channel) frames).
    { intros w0 Hs0. unfold bind at 1.
      destruct (dispatch E channel puuid cfg user w0) as [[] wd| | |] eqn:Hd; try discriminate.
      apply dispatch_frames in Hd. destruct Hd as (frames & Hs & _ & _ & Hall).
      unfold bind, now, ret. intros [= _ <-]. exists frames.
      cbn [sent set_clockReads]. rewrite Hs, Hs0. split; [reflexivity|].
      eapply Forall_impl; [exact Hall|]. intros f Hf. right. now exists user. }
    destruct (lastUsed !! normalize msg) as [t|].
    + unfold bind at 1, now at 1, ret at 1.
      destruct (_ <? _).
      * unfold ret. intros [= _ <-]. exists []. split; [reflexivity | constructor].
      * apply Hrest. reflexivity.
    + unfold ret at 1. apply Hrest. reflexivity.
Qed.

Lemma mainLoop_frames E channel puuid commands lines lastUsed w lastUsed' w' :
  mainLoop E channel puuid commands lastUsed lines w = Ret lastUsed' w' ->
  exists frames,
    sent w' = (frames ++ sent w)%list /\ Forall (response channel) frames.
Proof.
  revert lastUsed w. induction lines as [|l lines IH]; intros lastUsed w.
  - cbn [mainLoop]. unfold ret. intros [= _ <-]. exists []. split; [reflexivity | constructor].
  - cbn [mainLoop]. unfold bind at 1.
    destruct (handleLine E channel puuid commands lastUsed l w) as [lu1 w1| | |] eqn:Hh;
      try discriminate.
    intros Hrest. apply handleLine_frames in Hh. apply IH in Hrest.
    destruct Hh as (f1 & Hs1 & Hall1). destruct Hrest as (f2 & Hs2 & Hall2).
    exists (f2 ++ f1)%list. rewrite Hs2, Hs1, List.app_assoc. split; [reflexivity|].
    apply Forall_app. auto.
Qed.

Lemma LoadChampionMap_sent E w r w' :
  LoadChampionMap E w = Ret r w' -> sent w' = sent w.
Proof.
  unfold LoadChampionMap, locked, bind, lockWith, getWorld, unlockWith, ret.
  destruct (championsMu w); [discriminate|].
  cbn [championsMap championsFile set_championsMu].
  destruct (championsMap w); [intros [= _ <-]; reflexivity|].
  destruct (championsFile w) as [data|]; [|intros [= _ <-]; reflexivity].
  destruct (unmarshalChampions E data); intros [= _ <-]; reflexivity.
Qed.

Lemma GetOrCachePlayer_sent E gameName tagLine w r w' :
  GetOrCachePlayer E gameName tagLine w = Ret r w' -> sent w' = sent w.
Proof.
  intros H. destruct (GetOrCachePlayer_inv _ _ _ _ _ _ H) as (_ & [Hhit | [Herr | Hok]]).
  - destruct Hhit as (p & _ & _ & ->). reflexivity.
  - destruct Herr as (_ & e0 & _ & _ & _ & _ & Hs). exact Hs.
  - destruct Hok as (_ & entry & u1 & u2 & _ & _ & _ & _ & Hs & _). exact Hs.
Qed.

Lemma RefreshAppToken_sent E w w' :
  RefreshAppToken E w = Ret tt w' -> sent w' = sent w.
Proof.
  unfold RefreshAppToken. destruct (_ || _); [discriminate|].
  unfold bind, httpGet, ret.
  destruct (httpDo E _ _) as [|e|status body]; try (intros [= <-]; reflexivity).
  destruct (decodeAppToken E body); intros [= <-]; reflexivity.
Qed.

(** X19: in a run of [main] that returns, the three login frames PASS,
    NICK and JOIN are the first frames written, in that order, and every
    frame after them is the keepalive answer or an answer to a sender in
    the configured channel. *)
Theorem main_logs_in_before_it_answers (E : Env) (lines : list string) (w w' : World) :
  main E lines w = Ret tt w' ->
  exists frames,
    sent w' = (frames
               ++ [ ("JOIN #" ++ TWITCH_CHANNEL E ++ CRLF)%string;
                    ("NICK " ++ TWITCH_BOT_USERNAME E ++ CRLF)%string;
                    ("PASS " ++ TWITCH_OAUTH_TOKEN E ++ CRLF)%string ]
               ++ sent w)%list
    /\ Forall (response (TWITCH_CHANNEL E)) frames.
Proof.
  unfold main. cbv zeta.
  destruct (_ || _); [discriminate|].
  unfold bind at 1.
  destruct (GetOrCachePlayer E _ _ w) as [r w1| | |] eqn:H1; try discriminate.
  apply GetOrCachePlayer_sent in H1.
  destruct r as [puuid|e]; [|discriminate].
  unfold bind at 1.
  assert (H2 : exists c, loadCommands E w1 = Ret c w1 \/ loadCommands E w1 = Exit w1).
  { unfold loadCommands. destruct (commandsFile E) as [file|]; [|exists ∅; now right].
    destruct (unmarshalCommands E file) as [members|e]; [|exists ∅; now right].
    eexists. left. reflexivity. }
  destruct H2 as (commands & [H2|H2]); rewrite H2; [|discriminate].
  unfold bind at 1. unfold StartAppTokenRefresher.
  destruct (RefreshAppToken E w1) as [[] w3| | |] eqn:H3; try discriminate.
  apply RefreshAppToken_sent in H3.
  unfold bind at 1.
  destruct (LoadChampionMap E w3) as [r4 w4| | |] eqn:H4; try discriminate.
  apply LoadChampionMap_sent in H4.
  destruct (negb (dialOk E)); [discriminate|].
  unfold bind at 1, write at 1. unfold bind at 1, write at 1. unfold bind at 1, write at 1.
  unfold bind at 1.
  destruct (mainLoop E _ _ _ _ _ _) as [lu w5| | |] eqn:H5; try discriminate.
  apply mainLoop_frames in H5. destruct H5 as (frames & Hs & Hall).
  unfold ret. intros [= <-]. exists frames. split; [|exact Hall].
  rewrite Hs. cbn [sent set_sent app]. congruence.
Qed.

Lemma main_logs_in_before_it_answers_witness :
  let w' := worldOf (main calmEnv
                       [Scenario.privmsg "bob" "!hello"; ("PING :tmi.twitch.tv" ++ CRLF)%string]
                       (Scenario.world None None)) in
  exists frames,
    sent w' = (frames
               ++ [ ("JOIN #" ++ TWITCH_CHANNEL calmEnv ++ CRLF)%string;
                    ("NICK " ++ TWITCH_BOT_USERNAME calmEnv ++ CRLF)%string;
                    ("PASS " ++ TWITCH_OAUTH_TOKEN calmEnv ++ CRLF)%string ]
               ++ sent (Scenario.world None None))%list
    /\ Forall (response (TWITCH_CHANNEL calmEnv)) frames.
Proof.
  cbv zeta.
  apply (main_logs_in_before_it_answers calmEnv
           [Scenario.privmsg "bob" "!hello"; ("PING :tmi.twitch.tv" ++ CRLF)%string]
           (Scenario.world None None)).
  vm_compute. reflexivity.
Defined.

(** X20: [main] fails fast.  With one of the four required settings empty
    it exits at once, and when the player cannot be resolved it exits
    after that attempt; in both cases no frame is written, so no
    connection is used. *)
Theorem main_exits_before_connecting (E : Env) (lines : list string) (w : World) :
  (TWITCH_BOT_USERNAME E = "" \/ TWITCH_OAUTH_TOKEN E = "" \/ TWITCH_CHANNEL E = ""
   \/ SUMMONER_NAME E = "" -> main E lines w = Exit w)
  /\ (forall e w',
        TWITCH_BOT_USERNAME E <> "" -> TWITCH_OAUTH_TOKEN E <> "" ->
        TWITCH_CHANNEL E <> "" -> SUMMONER_NAME E <> "" ->
        GetOrCachePlayer E (SUMMONER_NAME E) (SUMMONER_TAG E) w = Ret (Err e) w' ->
        main E lines w = Exit w' /\ sent w' = sent w).
Proof.
  split.
  - intros H. unfold main. cbv zeta.
    replace (_ || _) with true; [reflexivity|]. symmetry.
    destruct H as [H | [H | [H | H]]]; rewrite H; cbn [String.eqb];
      rewrite ?orb_true_r; reflexivity.
  - intros e w' Hu Ho Hc Hs Hres. split; [|apply (GetOrCachePlayer_sent _ _ _ _ _ _ Hres)].
    unfold main. cbv zeta.
    apply String.eqb_neq in Hu, Ho, Hc, Hs. rewrite Hu, Ho, Hc, Hs. cbn [orb].
    unfold bind at 1. rewrite Hres. reflexivity.
Qed.

Lemma main_exits_before_connecting_witness :
  main refusedEnv [Scenario.privmsg "bob" "!hello"] (Scenario.world None None)
  = Exit (worldOf (GetOrCachePlayer refusedEnv "Faker" "KR1" (Scenario.world None None)))
  /\ sent (worldOf (GetOrCachePlayer refusedEnv "Faker" "KR1" (Scenario.world None None)))
     = sent (Scenario.world None None).
Proof.
  apply (proj2 (main_exits_before_connecting refusedEnv [Scenario.privmsg "bob" "!hello"]
                  (Scenario.world None None)) "request failed 403: forbidden");
    try discriminate.
  vm_compute. reflexivity.
Defined.

(** ** The registry, continued *)

Lemma normalizeCommands_source acc entries tok cfg :
  normalizeCommands acc entries !! tok = Some cfg ->
  acc !! tok = Some cfg \/ exists raw, In (raw, cfg) entries /\ normalize raw = tok.
Proof.
  revert acc. induction entries as [|[k v] entries IH]; intros acc H; [now left|].
  cbn [normalizeCommands] in H.
  destruct (IH _ H) as [Hacc | (raw & Hin & Hraw)].
  - rewrite lookup_insert in Hacc. destruct (decide (normalize k = tok)) as [Hk|_].
    + injection Hacc as ->. right. exists k. split; [now left | exact Hk].
    + now left.
  - right. exists raw. split; [now right | exact Hraw].
Qed.

(** X21: every key of the loaded registry is a normalized token: it
    consists of ASCII bytes and is the normalization of a raw key of the
    decoded configuration, whose entry it holds.  Loading changes nothing
    in the world. *)
Theorem registry_keys_are_tokens (E : Env) (w w' : World)
  (registry : gmap string CommandConfig) (tok : string) (cfg : CommandConfig) :
  loadCommands E w = Ret registry w' ->
  registry !! tok = Some cfg ->
  w' = w /\ allASCII tok = true
  /\ exists file members raw,
       commandsFile E = Some file /\ unmarshalCommands E file = Ok members
       /\ In (raw, cfg) (rangeCommands E (storeMembers ∅ members))
       /\ normalize raw = tok.
Proof.
  unfold loadCommands.
  destruct (commandsFile E) as [file|] eqn:Hfile; [|discriminate].
  destruct (unmarshalCommands E file) as [members|e] eqn:Hdec; [|discriminate].
  unfold ret. intros [= <- <-] Hlook. split; [reflexivity|].
  destruct (normalizeCommands_source _ _ _ _ Hlook) as [Hacc | (raw & Hin & Hraw)].
  - rewrite lookup_empty in Hacc. discriminate.
  - split; [rewrite <- Hraw; apply normalize_allASCII|].
    exists file. exists members. exists raw.
    split; [reflexivity|]. split; [exact Hdec|]. split; assumption.
Qed.

Lemma registry_keys_are_tokens_witness :
  Scenario.world None None = Scenario.world None None /\ allASCII "!a" = true
  /\ exists file members raw,
       commandsFile collidingEnv = Some file
       /\ unmarshalCommands collidingEnv file = Ok members
       /\ In (raw, firstCfg) (rangeCommands collidingEnv (storeMembers ∅ members))
       /\ normalize raw = "!a".
Proof.
  apply (registry_keys_are_tokens collidingEnv (Scenario.world None None) _
           (normalizeCommands ∅ (rangeCommands collidingEnv (storeMembers ∅ collidingMembers)))).
  - reflexivity.
  - vm_compute. reflexivity.
Defined.

(** ** The title command *)

Definition streamsURL (channel : string) : string :=
  ("https://api.twitch.tv/helix/streams?user_login=" ++ channel)%string.

(** X22: the title command says that the stream is offline when the
    answer lists no stream, and also when the first stream listed has
    the title [Offline]: the word is what [GetTwitchStreamInfo] returns for
    an empty list, and the loop cannot tell the two apart. *)
Theorem title_command_reports_offline (E : Env) (channel puuid user body : string)
  (cfg : CommandConfig) (w : World) (status : Z) (streams : list streamDatum) :
  Type_ cfg = "api" ->
  Endpoint cfg = "twitch_stream_info" ->
  TWITCH_CLIENT_ID E <> "" ->
  TwitchAppToken w <> "" ->
  httpDo E (List.length (requests w)) (streamsURL channel) = Response status body ->
  decodeStreams E body = Ok streams ->
  (streams = [] \/ exists d rest, streams = d :: rest /\ Title d = "Offline") ->
  dispatch E channel puuid cfg user w
  = Ret tt (set_sent (cons ("PRIVMSG #" ++ channel ++ " :"
                              ++ ("@" ++ user ++ " Stream is offline.") ++ CRLF)%string)
              (set_requests (cons (streamsURL channel)) w)).
Proof.
  intros Ht He Hid Htok Hans Hdec Hoff.
  unfold dispatch. rewrite Ht, He. cbn [String.eqb Ascii.eqb Bool.eqb].
  unfold bind at 1. unfold GetTwitchStreamInfo, bind, getWorld, httpGet.
  apply String.eqb_neq in Hid, Htok. rewrite Hid, Htok. cbn [orb].
  fold (streamsURL channel). rewrite Hans, Hdec.
  destruct Hoff as [-> | (d & rest & -> & Hd)].
  - reflexivity.
  - unfold ret. rewrite Hd. reflexivity.
Qed.

(** The stream is live and its title is the word Offline. *)
Definition offlineTitleEnv : Env :=
  {| TWITCH_BOT_USERNAME := "bot"; TWITCH_OAUTH_TOKEN := "oauth:x";
     TWITCH_CHANNEL := "chan"; SUMMONER_NAME := "Faker"; SUMMONER_TAG := "KR1";
     TWITCH_CLIENT_ID := "cid"; TWITCH_CLIENT_SECRET := "sec";
     RIOT_TOKEN := "RGAPI-1"; RIOT_PLATFORM := ""; RIOT_REGION := "";
     httpDo := fun _ _ => Response 200 "ok"; timeNow := Scenario.tick;
     writeFileOk := fun _ => true; dialOk := true;
     commandsFile := Some "commands";
     unmarshalCommands := fun _ => Ok Scenario.registry;
     rangeCommands := map_to_list;
     decodeAppToken := fun _ => Ok "app-token";
     unmarshalPlayerCache := stubUnmarshal;
     marshalPlayerCache := stubMarshal;
     unmarshalAccount := fun _ => Ok Scenario.theAccount;
     unmarshalSummoner := fun _ => Ok Scenario.theSummoner;
     unmarshalChampions := fun _ => Ok [("1", "Aatrox")];
     unmarshalLeague := fun _ => [];
     unmarshalSpectator := fun _ => {| BannedChampions := [] |};
     unmarshalMatchIDs := fun _ => [];
     unmarshalMatch := fun _ => [];
     decodeStreams := fun _ =>
       Ok [ {| UserName := "chan"; Title := "Offline"; GameName := "League of Legends" |} ];
     decodeStartedAt := fun _ => ["2025-01-01T00:00:00Z"];
     parseRFC3339Unix := fun _ => 1735689600;
     formatFloat2 := fun _ => "0.00" |}.

Lemma title_command_reports_offline_witness :
  let w := set_TwitchAppToken "app-token" (Scenario.world None None) in
  dispatch offlineTitleEnv "chan" "p-1" (Scenario.api "twitch_stream_info" 2) "bob" w
  = Ret tt (set_sent (cons ("PRIVMSG #" ++ "chan" ++ " :"
                              ++ ("@" ++ "bob" ++ " Stream is offline.") ++ CRLF)%string)
              (set_requests (cons (streamsURL "chan")) w)).
Proof.
  cbv zeta.
  apply (title_command_reports_offline offlineTitleEnv "chan" "p-1" "bob" "ok"
           (Scenario.api "twitch_stream_info" 2) _ 200
           [ {| UserName := "chan"; Title := "Offline"; GameName := "League of Legends" |} ]).
  - reflexivity.
  - reflexivity.
  - discriminate.
  - discriminate.
  - reflexivity.
  - reflexivity.
  - right. eexists _, _. split; reflexivity.
Defined.
